(** * Stock reconciliation: a shallow embedding of the sales-tracking core

    The development follows three source files of the application:
    - [utils/calculateStockFinal.ts]: [calculateStockFinal], [hasEarlySales]
      and [getEarlySalesQuantity];
    - [components/stock/StockFilters.tsx] (the stock component with the
      historical view): [calculateHistoricalStock];
    - [hooks/useStockStatistics.ts]: [useStockStatistics].

    It goes on with the code around them: the sales filters, the enhanced
    products, the product filters, the missing products and
    the stock edits of the stock component; the pagination of
    [useFilteredProducts]; the selection handlers; the status texts, the
    printed range and the page buttons of [components/stock/StockTable.tsx];
    and the validation of the product form ([ProductEditModal]).

    JavaScript numbers that hold unit counts are integers of [Z]; monetary
    amounts are rationals of [Q].  Strings are [string]s over the ASCII
    range.  A [Date] is its time value in milliseconds, or the Invalid Date. *)

From Stdlib Require Import ZArith List String Ascii Bool Lia QArith.
From Stdlib Require Import Permutation Sorted.
Import ListNotations.

Open Scope Z_scope.

(** ** JavaScript built-ins used by the source *)

Module JS.

(** [String.prototype.toLowerCase], on the ASCII range: the letters
    [A]..[Z] (codes 65..90) move to [a]..[z], every other code unit is
    kept. *)
Definition lowerChar (c : ascii) : ascii :=
  let n := nat_of_ascii c in
  if Nat.leb 65 n && Nat.leb n 90 then ascii_of_nat (n + 32) else c.

Fixpoint toLowerCase (s : string) : string :=
  match s with
  | EmptyString => EmptyString
  | String c rest => String (lowerChar c) (toLowerCase rest)
  end.

(** The white space and line terminators that [String.prototype.trim]
    strips, on the ASCII range: TAB, LF, VT, FF, CR and SPACE. *)
Definition isWhiteSpace (c : ascii) : bool :=
  let n := nat_of_ascii c in
  (Nat.leb 9 n && Nat.leb n 13) || Nat.eqb n 32.

Fixpoint trimStart (s : string) : string :=
  match s with
  | EmptyString => EmptyString
  | String c rest => if isWhiteSpace c then trimStart rest else s
  end.

Fixpoint trimEnd (s : string) : string :=
  match s with
  | EmptyString => EmptyString
  | String c rest =>
      match trimEnd rest with
      | EmptyString => if isWhiteSpace c then EmptyString
                       else String c EmptyString
      | kept => String c kept
      end
  end.

Definition trim (s : string) : string := trimEnd (trimStart s).

(** Truthiness of an optional string property: [undefined] and the empty
    string are falsy. *)
Definition truthy (o : option string) : bool :=
  match o with
  | None => false
  | Some s => negb (String.eqb s EmptyString)
  end.

(** [x || y] on numbers: [0] is the falsy integer. *)
Definition orElse (x y : Z) : Z := if x =? 0 then y else x.

(** [x || 0] on an optional numeric property. *)
Definition orZero (o : option Z) : Z :=
  match o with
  | None => 0
  | Some x => orElse x 0
  end.

End JS.

(** ** Dates and the date-fns functions the source imports *)

Module DateFns.

(** A JavaScript [Date]: a time value in milliseconds since the epoch
    (UTC), or the Invalid Date, whose time value is NaN. *)
Inductive Date : Type :=
| TimeValue (ms : Z)
| InvalidDate.

(** The comparisons of date-fns compare time values; every comparison
    with NaN is false. *)
Definition isAfter (date dateToCompare : Date) : bool :=
  match date, dateToCompare with
  | TimeValue a, TimeValue b => b <? a
  | _, _ => false
  end.

Definition isBefore (date dateToCompare : Date) : bool :=
  match date, dateToCompare with
  | TimeValue a, TimeValue b => a <? b
  | _, _ => false
  end.

Definition isEqual (leftDate rightDate : Date) : bool :=
  match leftDate, rightDate with
  | TimeValue a, TimeValue b => a =? b
  | _, _ => false
  end.

(** [a.getTime() === b.getTime()]: strict equality of two numbers, false
    on NaN. *)
Definition sameTime (a b : Date) : bool :=
  match a, b with
  | TimeValue x, TimeValue y => x =? y
  | _, _ => false
  end.

Definition MS_PER_DAY : Z := 86400000.

Section LocalTime.

(** The offset of local time from UTC, in milliseconds (a zone of
    fixed offset): local time is [t + tz]. *)
Variable tz : Z.

(** The local calendar day a time value falls on, counted from the
    epoch. *)
Definition localDay (t : Z) : Z := (t + tz) / MS_PER_DAY.

(** [startOfDay]: [setHours(0, 0, 0, 0)] on a copy of the date. *)
Definition startOfDay (d : Date) : Date :=
  match d with
  | TimeValue t => TimeValue (localDay t * MS_PER_DAY - tz)
  | InvalidDate => InvalidDate
  end.

(** [endOfDay]: [setHours(23, 59, 59, 999)] on a copy of the date. *)
Definition endOfDay (d : Date) : Date :=
  match d with
  | TimeValue t =>
      TimeValue (localDay t * MS_PER_DAY + (MS_PER_DAY - 1) - tz)
  | InvalidDate => InvalidDate
  end.

(** *** [parseISO] on calendar dates

    The application writes [initialStockDate] with
    [format(date, 'yyyy-MM-dd')]; [parseISO] reads such a string as
    local midnight of that day and answers the Invalid Date when the
    month or the day is out of range.  Other ISO 8601 forms are not
    read by this function. *)
Definition digit (c : ascii) : option Z :=
  let n := nat_of_ascii c in
  if Nat.leb 48 n && Nat.leb n 57 then Some (Z.of_nat (n - 48)) else None.

Fixpoint digits (acc : Z) (cs : list ascii) : option Z :=
  match cs with
  | [] => Some acc
  | c :: rest =>
      match digit c with
      | Some v => digits (10 * acc + v) rest
      | None => None
      end
  end.

Definition isLeapYear (y : Z) : bool :=
  ((y mod 4 =? 0) && negb (y mod 100 =? 0)) || (y mod 400 =? 0).

Definition daysInMonth (y m : Z) : Z :=
  if m =? 2 then (if isLeapYear y then 29 else 28)
  else if (m =? 4) || (m =? 6) || (m =? 9) || (m =? 11) then 30
  else 31.

(** Days from 1970-01-01 to the civil date [y]-[m]-[d]. *)
Definition daysFromCivil (y m d : Z) : Z :=
  let y' := if m <=? 2 then y - 1 else y in
  let era := y' / 400 in
  let yoe := y' - era * 400 in
  let doy := (153 * (if 2 <? m then m - 3 else m + 9) + 2) / 5 + d - 1 in
  let doe := yoe * 365 + yoe / 4 - yoe / 100 + doy in
  era * 146097 + doe - 719468.

Definition parseISODate (s : string) : Date :=
  match list_ascii_of_string s with
  | [y1; y2; y3; y4; h1; m1; m2; h2; d1; d2] =>
      if Ascii.eqb h1 "-" && Ascii.eqb h2 "-" then
        match digits 0 [y1; y2; y3; y4], digits 0 [m1; m2],
              digits 0 [d1; d2] with
        | Some y, Some m, Some d =>
            if (1 <=? m) && (m <=? 12) && (1 <=? d)
               && (d <=? daysInMonth y m)
            then TimeValue (daysFromCivil y m d * MS_PER_DAY - tz)
            else InvalidDate
        | _, _, _ => InvalidDate
        end
      else InvalidDate
  | _ => InvalidDate
  end.

End LocalTime.

End DateFns.

(** ** The data model *)

Module Sale.

(** Modelled from the spec: the declaration of [RegisterSale] in
    [types], which the sources import; one line of the sales ledger, with
    the properties the sources read and the storage schema of
    [lib/firebase.ts] lists. *)
Record t : Type := mk {
  id : string;
  product : string;
  category : string;
  register : string;
  date : DateFns.Date;
  seller : string;
  quantity : Z;
  price : Q;
  total : Q
}.

End Sale.

Module Product.

(** Modelled from the spec: the declaration of [Product] in [types], which
    the sources import.  [initialStockDate], [quantitySold] and
    [description] are optional properties (the sources read them with
    [!x] or [x || default]); the others are always present. *)
Record t : Type := mk {
  id : string;
  name : string;
  category : string;
  price : Q;
  stock : Z;
  initialStock : Z;
  initialStockDate : option string;
  quantitySold : option Z;
  minStock : Z;
  description : option string
}.

Definition withInitialStockDate (p : t) (d : option string) : t :=
  mk (id p) (name p) (category p) (price p) (stock p) (initialStock p)
     d (quantitySold p) (minStock p) (description p).

End Product.

(** ** utils/calculateStockFinal.ts and the historical view of the stock component *)

Module Stock.

Import JS DateFns.

(** The test each filter of the source repeats on a sale and a product:
    [sale.product.toLowerCase().trim() === product.name.toLowerCase().trim()
     && sale.category.toLowerCase().trim()
        === product.category.toLowerCase().trim()]. *)
Definition sameProduct (sale : Sale.t) (product : Product.t) : bool :=
  String.eqb (trim (toLowerCase (Sale.product sale)))
             (trim (toLowerCase (Product.name product)))
  && String.eqb (trim (toLowerCase (Sale.category sale)))
                (trim (toLowerCase (Product.category product))).

(** [list.reduce((sum, sale) => sum + sale.quantity, 0)]. *)
Definition sumQuantity (sales : list Sale.t) : Z :=
  fold_left (fun sum sale => sum + Sale.quantity sale) sales 0.

Section Final.

(** date-fns' [parseISO], from the text of a date to a [Date]. *)
Variable parseISO : string -> Date.

(** The sales [calculateStockFinal] keeps: same product, on or after
    the initial stock date. *)
Definition relevantSales (product : Product.t) (initialStockDate : Date)
    (sales : list Sale.t) : list Sale.t :=
  filter (fun sale =>
            sameProduct sale product
            && (isAfter (Sale.date sale) initialStockDate
                || isEqual (Sale.date sale) initialStockDate))
         sales.

Definition calculateStockFinal (product : Product.t)
    (sales : list Sale.t) : Z :=
  match Product.initialStockDate product with
  | None => Product.initialStock product
  | Some iso =>
      if String.eqb iso EmptyString then Product.initialStock product
      else
        let initialStockDate := parseISO iso in
        let totalSoldAfterInitialDate :=
          sumQuantity (relevantSales product initialStockDate sales) in
        Z.max 0 (Product.initialStock product - totalSoldAfterInitialDate)
  end.

Definition hasEarlySales (product : Product.t)
    (sales : list Sale.t) : bool :=
  match Product.initialStockDate product with
  | None => false
  | Some iso =>
      if String.eqb iso EmptyString then false
      else
        let initialStockDate := parseISO iso in
        existsb (fun sale =>
                   sameProduct sale product
                   && isBefore (Sale.date sale) initialStockDate)
                sales
  end.

Definition getEarlySalesQuantity (product : Product.t)
    (sales : list Sale.t) : Z :=
  match Product.initialStockDate product with
  | None => 0
  | Some iso =>
      if String.eqb iso EmptyString then 0
      else
        let initialStockDate := parseISO iso in
        sumQuantity
          (filter (fun sale =>
                     sameProduct sale product
                     && isBefore (Sale.date sale) initialStockDate)
                  sales)
  end.

End Final.

(** The result of [calculateHistoricalStock]. *)
Record HistoricalStock : Type := mkHistoricalStock {
  historicalStock : Z;
  quantitySoldUpToDate : Z;
  isHistoricalView : bool
}.

Section Historical.

Variable tz : Z.

(** [registerSales] is a property of the component, captured by the
    closure. *)
Variable registerSales : list Sale.t.

(** The sales kept for a target date: up to and including the end of
    its day, and of the same product. *)
Definition salesUpToDate (product : Product.t) (targetDate : Date)
    : list Sale.t :=
  filter (fun sale =>
            let saleDate := Sale.date sale in
            let endOfTargetDate := endOfDay tz targetDate in
            (isBefore saleDate endOfTargetDate
             || sameTime saleDate endOfTargetDate)
            && String.eqb (trim (toLowerCase (Sale.product sale)))
                          (trim (toLowerCase (Product.name product)))
            && String.eqb (trim (toLowerCase (Sale.category sale)))
                          (trim (toLowerCase (Product.category product))))
         registerSales.

(** [targetDate] is an optional argument: [None] is [undefined] (or
    the [null] the caller passes); a [Date] object, even the Invalid
    Date, is truthy. *)
Definition calculateHistoricalStock (product : Product.t)
    (targetDate : option Date) : HistoricalStock :=
  match targetDate with
  | None =>
      {| historicalStock := Product.stock product;
         quantitySoldUpToDate := orZero (Product.quantitySold product);
         isHistoricalView := false |}
  | Some target =>
      let quantitySoldUpToDate :=
        sumQuantity (salesUpToDate product target) in
      let initialStock :=
        orElse (Product.initialStock product)
               (Product.stock product
                + orZero (Product.quantitySold product)) in
      {| historicalStock := Z.max 0 (initialStock - quantitySoldUpToDate);
         quantitySoldUpToDate := quantitySoldUpToDate;
         isHistoricalView := true |}
  end.

End Historical.

End Stock.

(** ** hooks/useStockStatistics.ts *)

Module Stats.

Record CategoryCount : Type := mkCategoryCount {
  category : string;
  count : Z;
  stock : Z;
  sold : Z;
  revenue : Q
}.

(** The [stockLevels] object; its [outOfStock] and [lowStock] properties
    carry a prefix here, the statistics have fields of the same names. *)
Record StockLevels : Type := mkStockLevels {
  levelOutOfStock : Z;
  levelLowStock : Z;
  healthy : Z
}.

Record Statistics : Type := mkStatistics {
  totalProducts : Z;
  totalStock : Z;
  totalSold : Z;
  outOfStock : Z;
  lowStock : Z;
  totalRevenue : Q;
  categoryCounts : list CategoryCount;
  stockLevels : StockLevels
}.

(** [list.length] as a number. *)
Definition len {A : Type} (l : list A) : Z := Z.of_nat (List.length l).

Definition sumStock (l : list Product.t) : Z :=
  fold_left (fun sum product => sum + Product.stock product) l 0.

Definition sumSold (l : list Product.t) : Z :=
  fold_left (fun sum product =>
               sum + JS.orZero (Product.quantitySold product)) l 0.

Definition sumRevenue (l : list Product.t) : Q :=
  fold_left (fun sum product =>
               let sold := JS.orZero (Product.quantitySold product) in
               (sum + inject_Z sold * Product.price product)%Q)
            l (0 # 1)%Q.

(** [[...new Set(list)]]: the distinct values, in the order of their
    first occurrence. *)
Definition distinct (l : list string) : list string :=
  fold_left (fun seen c =>
               if existsb (String.eqb c) seen then seen else seen ++ [c])
            l [].

(** [Array.prototype.sort] with the comparator
    [(a, b) => b.count - a.count]: a stable sort, larger counts first. *)
Fixpoint insertByCount (a : CategoryCount) (l : list CategoryCount)
    : list CategoryCount :=
  match l with
  | [] => [a]
  | b :: rest =>
      if count b - count a <=? 0 then a :: b :: rest
      else b :: insertByCount a rest
  end.

Definition sortByCount (l : list CategoryCount) : list CategoryCount :=
  fold_right insertByCount [] l.

(** The body of the memoised computation of [useStockStatistics]; the
    first argument only keys the memo. *)
Definition useStockStatistics (products filteredProducts : list Product.t)
    : Statistics :=
  let totalProducts := len filteredProducts in
  let totalStock := sumStock filteredProducts in
  let totalSold := sumSold filteredProducts in
  let outOfStock :=
    len (filter (fun product => Product.stock product =? 0)
                filteredProducts) in
  let lowStock :=
    len (filter (fun product =>
                   (0 <? Product.stock product)
                   && (Product.stock product <=? Product.minStock product))
                filteredProducts) in
  let totalRevenue := sumRevenue filteredProducts in
  let categories := distinct (map Product.category filteredProducts) in
  let categoryCounts :=
    sortByCount
      (map (fun category =>
              let productsInCategory :=
                filter (fun product =>
                          String.eqb (Product.category product) category)
                       filteredProducts in
              {| category := category;
                 count := len productsInCategory;
                 stock := sumStock productsInCategory;
                 sold := sumSold productsInCategory;
                 revenue := sumRevenue productsInCategory |})
           categories) in
  {| totalProducts := totalProducts;
     totalStock := totalStock;
     totalSold := totalSold;
     outOfStock := outOfStock;
     lowStock := lowStock;
     totalRevenue := totalRevenue;
     categoryCounts := categoryCounts;
     stockLevels :=
       {| levelOutOfStock := outOfStock;
          levelLowStock := lowStock;
          healthy := totalProducts - outOfStock - lowStock |} |}.

End Stats.


(** ** The specification's vocabulary

    These definitions follow the words of the specification; the theorems
    compare them with the functions embedded from the source. *)

Module Spec.

Import JS DateFns Stock.

(** [a <= b] on dates: both are valid and the time value of [a] is not
    after that of [b]. *)
Definition dateLeb (a b : Date) : bool :=
  match a, b with
  | TimeValue x, TimeValue y => x <=? y
  | _, _ => false
  end.

(** A string after lowercasing and trimming. *)
Definition normalized (s : string) : string := trim (toLowerCase s).

(** The matcher of the specification: both normalized fields are equal. *)
Definition matches (sale : Sale.t) (product : Product.t) : Prop :=
  normalized (Sale.product sale) = normalized (Product.name product)
  /\ normalized (Sale.category sale) = normalized (Product.category product).

(** [matched = { s in allSales : matches(s, product) }]. *)
Definition matched (product : Product.t) (sales : list Sale.t)
    : list Sale.t :=
  filter (fun sale => sameProduct sale product) sales.

(** Current stock of a product with no initial stock date, in the words of
    the testable property: initial stock minus all matched sales, clamped
    at zero. *)
Definition undatedStock (product : Product.t) (sales : list Sale.t) : Z :=
  Z.max 0 (Product.initialStock product - sumQuantity (matched product sales)).

(** The baseline of the historical view in the words of the
    specification: chosen by the presence of [initialStockDate]. *)
Definition baseInitial (product : Product.t) : Z :=
  if truthy (Product.initialStockDate product)
  then Product.initialStock product
  else Product.stock product + orZero (Product.quantitySold product).

(** Two dates on one local calendar day. *)
Definition sameLocalDay (tz : Z) (a b : Date) : Prop :=
  match a, b with
  | TimeValue x, TimeValue y => localDay tz x = localDay tz y
  | _, _ => False
  end.

(** A date strictly after the end of the day of [target]. *)
Definition afterEndOfDay (tz : Z) (a target : Date) : Prop :=
  match a, endOfDay tz target with
  | TimeValue x, TimeValue e => e < x
  | _, _ => False
  end.

End Spec.

(** ** Sample records *)

Module Fixtures.

Import DateFns.
Open Scope string_scope.

Definition mkProduct (name category : string) (stock initialStock : Z)
    (initialStockDate : option string) (quantitySold : option Z)
    : Product.t :=
  Product.mk "p1" name category (25 # 2)%Q stock initialStock
             initialStockDate quantitySold 5 None.

Definition mkSale (product category : string) (date : Date) (quantity : Z)
    : Sale.t :=
  Sale.mk "s1" product category "Register1" date "seller" quantity
          (25 # 2)%Q (inject_Z quantity * (25 # 2))%Q.

(** The product of the specification's scenarios. *)
Definition widget : Product.t :=
  mkProduct "Widget" "Tools" 90 100 (Some "2024-01-01") (Some 10).

(** The same product without an initial stock date. *)
Definition widgetUndated : Product.t :=
  mkProduct "Widget" "Tools" 90 100 None (Some 10).

(** A product whose recorded initial stock is zero, with 3 units sold and
    a stock clamped at zero. *)
Definition gadget : Product.t :=
  mkProduct "Gadget" "Tools" 0 0 (Some "2024-01-01") (Some 3).

(** A product with no date and an initial stock of 100, oversold: 120
    units sold and a stock clamped at zero. *)
Definition widgetOversold : Product.t :=
  mkProduct "Widget" "Tools" 0 100 None (Some 120).

(** Local time two hours ahead of UTC. *)
Definition tz : Z := 7200000.

Definition day (iso : string) : Date := parseISODate tz iso.

(** The ledger of the specification's scenario: 10 units on the initial
    stock date, 5 units the day before. *)
Definition ledger : list Sale.t :=
  [ mkSale "Widget" "Tools" (day "2024-01-01") 10;
    mkSale "Widget" "Tools" (day "2023-12-31") 5 ].

Definition untidySale : Sale.t :=
  mkSale " widget " "TOOLS" (day "2024-01-02") 3.

(** The last millisecond of 2024-01-01 in local time, and the one after. *)
Definition lastMs : Date := endOfDay tz (day "2024-01-01").

Definition nextMs : Date :=
  match lastMs with
  | TimeValue t => TimeValue (t + 1)
  | InvalidDate => InvalidDate
  end.

Definition bigSale : Sale.t :=
  mkSale "Widget" "Tools" (day "2024-01-03") 250.

Definition lastMsSale : Sale.t := mkSale "Widget" "Tools" lastMs 4.

Definition nextMsSale : Sale.t := mkSale "Widget" "Tools" nextMs 7.

(** Three sales around the end of 2024-01-01: at local midnight, at the
    last millisecond of the day, and one millisecond later. *)
Definition boundaryLedger : list Sale.t :=
  [ mkSale "Widget" "Tools" (day "2024-01-01") 10; lastMsSale; nextMsSale ].

(** A ledger whose only sale is dated exactly on the initial stock date. *)
Definition onDateLedger : list Sale.t :=
  [ mkSale "Widget" "Tools" (day "2024-01-01") 10 ].

End Fixtures.

(** ** The stock component: sales filters and enhanced products *)

Module StockView.

Import JS DateFns Stock.

(** Truthiness of a string: the empty string is falsy. *)
Definition nonEmpty (s : string) : bool := negb (String.eqb s EmptyString).

(** [a !== b] on strings. *)
Definition differs (a b : string) : bool := negb (String.eqb a b).

(** [String.prototype.includes]: [sub] occurs in [s]; the empty string
    occurs in every string. *)
Fixpoint includes (s sub : string) : bool :=
  String.prefix sub s
  || match s with
     | EmptyString => false
     | String _ rest => includes rest sub
     end.

(** The [dateRange] state: two texts of date inputs, empty when unset. *)
Record DateRange : Type := mkDateRange {
  start : string;
  end_ : string
}.

(** The filter states of the component. *)
Record Filters : Type := mkFilters {
  searchTerm : string;
  filterCategory : string;
  filterStatus : string;
  filterStockLevel : string;
  filterRegister : string;
  filterSeller : string;
  dateRange : DateRange
}.

Section Component.

Variable tz : Z.

(** [new Date(text)] on the text of a date input. *)
Variable newDate : string -> Date.

Variable registerSales : list Sale.t.
Variable products : list Product.t.
Variable filters : Filters.

(** The callback of the date range filter of [getFilteredSales]. *)
Definition matchesDateRange (sale : Sale.t) : bool :=
  let saleDate := Sale.date sale in
  let matchesDateRange := true in
  let matchesDateRange :=
    if nonEmpty (start (dateRange filters)) then
      let startDate := startOfDay tz (newDate (start (dateRange filters))) in
      matchesDateRange
      && (isAfter saleDate startDate || sameTime saleDate startDate)
    else matchesDateRange in
  let matchesDateRange :=
    if nonEmpty (end_ (dateRange filters)) then
      let endDate := endOfDay tz (newDate (end_ (dateRange filters))) in
      matchesDateRange
      && (isBefore saleDate endDate || sameTime saleDate endDate)
    else matchesDateRange in
  matchesDateRange.

Definition getFilteredSales : list Sale.t :=
  let filtered := registerSales in
  let filtered :=
    if nonEmpty (start (dateRange filters))
       || nonEmpty (end_ (dateRange filters))
    then filter matchesDateRange filtered
    else filtered in
  let filtered :=
    if differs (filterRegister filters) "all"
    then filter (fun sale =>
                   String.eqb (Sale.register sale) (filterRegister filters))
                filtered
    else filtered in
  let filtered :=
    if differs (filterSeller filters) "all"
    then filter (fun sale =>
                   String.eqb (Sale.seller sale) (filterSeller filters))
                filtered
    else filtered in
  filtered.

(** The key [`${name}|${category}`] of normalized fields. *)
Definition saleKey (sale : Sale.t) : string :=
  (trim (toLowerCase (Sale.product sale)) ++ "|"
   ++ trim (toLowerCase (Sale.category sale)))%string.

Definition productKey (product : Product.t) : string :=
  (trim (toLowerCase (Product.name product)) ++ "|"
   ++ trim (toLowerCase (Product.category product)))%string.

Definition getProductsWithFilteredSales : list Product.t :=
  let filteredSales := getFilteredSales in
  if String.eqb (filterRegister filters) "all"
     && String.eqb (filterSeller filters) "all"
     && negb (nonEmpty (start (dateRange filters)))
     && negb (nonEmpty (end_ (dateRange filters)))
  then products
  else
    let salesProductNames := Stats.distinct (map saleKey filteredSales) in
    filter (fun product =>
              existsb (String.eqb (productKey product)) salesProductNames)
           products.

(** A product with the fields [enhancedProducts] adds to it. *)
Record Enhanced : Type := mkEnhanced {
  base : Product.t;
  displayStock : Z;
  displayQuantitySold : Z;
  isHistoricalView : bool;
  originalStock : Z;
  originalQuantitySold : Z
}.

(** The target date of the historical view: the end of the range, else
    its start, else none. *)
Definition targetDate : option Date :=
  if nonEmpty (end_ (dateRange filters))
  then Some (newDate (end_ (dateRange filters)))
  else if nonEmpty (start (dateRange filters))
       then Some (newDate (start (dateRange filters)))
       else None.

Definition enhancedProducts : list Enhanced :=
  map (fun product =>
         let stockInfo :=
           calculateHistoricalStock tz registerSales product targetDate in
         {| base := product;
            displayStock := historicalStock stockInfo;
            displayQuantitySold := quantitySoldUpToDate stockInfo;
            isHistoricalView := Stock.isHistoricalView stockInfo;
            originalStock := Product.stock product;
            originalQuantitySold := orZero (Product.quantitySold product) |})
      products.

(** The callback of the status filter of [filteredProducts], on the stock
    the view displays. *)
Definition statusKeeps (product : Enhanced) : bool :=
  let stockToCheck := displayStock product in
  if String.eqb (filterStatus filters) "in_stock"
  then Product.minStock (base product) <? stockToCheck
  else if String.eqb (filterStatus filters) "low_stock"
  then (0 <? stockToCheck)
       && (stockToCheck <=? Product.minStock (base product))
  else if String.eqb (filterStatus filters) "out_of_stock"
  then stockToCheck =? 0
  else true.

(** The callback of the stock level filter of [filteredProducts]. *)
Definition stockLevelKeeps (product : Enhanced) : bool :=
  let stockToCheck := displayStock product in
  if String.eqb (filterStockLevel filters) "high"
  then 100 <? stockToCheck
  else if String.eqb (filterStockLevel filters) "medium"
  then (10 <=? stockToCheck) && (stockToCheck <=? 100)
  else if String.eqb (filterStockLevel filters) "low"
  then (0 <? stockToCheck) && (stockToCheck <? 10)
  else if String.eqb (filterStockLevel filters) "empty"
  then stockToCheck =? 0
  else true.

(** [missingProducts]: the product texts of the sales whose lowercased
    text is the lowercased name of no product, each once, in the order the
    ledger first shows them. *)
Definition missingProducts : list string :=
  let existingProductNames :=
    Stats.distinct (map (fun p => toLowerCase (Product.name p)) products) in
  fold_left
    (fun missingItems sale =>
       let productName := toLowerCase (Sale.product sale) in
       if negb (existsb (String.eqb productName) existingProductNames)
       then if existsb (String.eqb (Sale.product sale)) missingItems
            then missingItems
            else missingItems ++ [Sale.product sale]
       else missingItems)
    registerSales [].

(** [hasSalesFilters] and [hasActiveFilters], as truth values. *)
Definition hasSalesFilters : bool :=
  differs (filterRegister filters) "all"
  || differs (filterSeller filters) "all"
  || nonEmpty (start (dateRange filters))
  || nonEmpty (end_ (dateRange filters)).

Definition hasActiveFilters : bool :=
  nonEmpty (searchTerm filters)
  || differs (filterCategory filters) "all"
  || differs (filterStatus filters) "all"
  || differs (filterStockLevel filters) "all"
  || hasSalesFilters.

End Component.

(** The filter states [clearAllFilters] sets; it also sets the current
    page to 1. *)
Definition clearAllFilters : Filters :=
  {| searchTerm := "";
     filterCategory := "all";
     filterStatus := "all";
     filterStockLevel := "all";
     filterRegister := "all";
     filterSeller := "all";
     dateRange := {| start := ""; end_ := "" |} |}.

(** The updates [handleInitialStockChange] sends for a product. *)
Record StockUpdates : Type := mkStockUpdates {
  newInitialStockOf : Z;
  newStockOf : Z
}.

(** [products.find(p => p.id === productId)]. *)
Definition findProduct (products : list Product.t) (productId : string)
    : option Product.t :=
  find (fun p => String.eqb (Product.id p) productId) products.

(** [handleInitialStockChange]: nothing is sent when no product has the
    id; else the new initial stock and the current stock derived from it. *)
Definition handleInitialStockChange (products : list Product.t)
    (productId : string) (newInitialStock : Z) : option StockUpdates :=
  match findProduct products productId with
  | None => None
  | Some product =>
      let quantitySold := orZero (Product.quantitySold product) in
      let newCurrentStock := Z.max 0 (newInitialStock - quantitySold) in
      Some {| newInitialStockOf := newInitialStock;
              newStockOf := newCurrentStock |}
  end.

(** A product after the store merged the updates into it. *)
Definition withUpdates (product : Product.t) (updates : StockUpdates)
    : Product.t :=
  Product.mk (Product.id product) (Product.name product)
             (Product.category product) (Product.price product)
             (newStockOf updates) (newInitialStockOf updates)
             (Product.initialStockDate product)
             (Product.quantitySold product) (Product.minStock product)
             (Product.description product).

End StockView.

(** ** Pagination, selection and the table *)

Module Pager.

(** [Math.ceil(n / k)] for a length [n] and a page size [k > 0]. *)
Definition ceilDiv (n k : Z) : Z := - ((- n) / k).

(** [Array.prototype.slice(start, end)]: a negative index counts from the
    end of the array, and both indices are clamped to its bounds. *)
Definition relativeIndex (len i : Z) : Z :=
  if i <? 0 then Z.max (len + i) 0 else Z.min i len.

Definition slice {A : Type} (l : list A) (start end_ : Z) : list A :=
  let len := Z.of_nat (List.length l) in
  let k := relativeIndex len start in
  let final := relativeIndex len end_ in
  firstn (Z.to_nat (Z.max (final - k) 0)) (skipn (Z.to_nat k) l).

Definition paginatedProducts {A : Type} (sortedProducts : list A)
    (currentPage itemsPerPage : Z) : list A :=
  let startIndex := (currentPage - 1) * itemsPerPage in
  let endIndex := startIndex + itemsPerPage in
  slice sortedProducts startIndex endIndex.

Definition totalPages {A : Type} (sortedProducts : list A)
    (itemsPerPage : Z) : Z :=
  ceilDiv (Z.of_nat (List.length sortedProducts)) itemsPerPage.

(** The page [goToPage] sets. *)
Definition goToPage (page totalPages : Z) : Z :=
  Z.max 1 (Z.min page totalPages).

(** The numbers on the page buttons of the table:
    [Array.from({ length: Math.min(5, totalPages) }, (_, i) => pageNum)]. *)
Definition pageNum (currentPage totalPages i : Z) : Z :=
  if totalPages <=? 5 then i + 1
  else if currentPage <=? 3 then i + 1
  else if totalPages - 2 <=? currentPage then totalPages - 4 + i
  else currentPage - 2 + i.

(** The table renders the page buttons under the guard
    [totalPages > 1 && (...)]: with at most one page there is none. *)
Definition pageButtons (currentPage totalPages : Z) : list Z :=
  if 1 <? totalPages
  then map (fun i => pageNum currentPage totalPages (Z.of_nat i))
           (seq 0 (Z.to_nat (Z.min 5 totalPages)))
  else [].

(** The range the table prints above the rows, ["first-last sur total"];
    [None] stands for the text ["0 résultat"]. *)
Definition shownRange (currentPage itemsPerPage totalFilteredProducts : Z)
    : option (Z * Z) :=
  if 0 <? totalFilteredProducts
  then Some ((currentPage - 1) * itemsPerPage + 1,
             Z.min (currentPage * itemsPerPage) totalFilteredProducts)
  else None.

End Pager.

Module Selection.

(** A [Set<string>]: its elements in insertion order, each once. *)
Definition has (selected : list string) (x : string) : bool :=
  existsb (String.eqb x) selected.

Definition add (selected : list string) (x : string) : list string :=
  if has selected x then selected else selected ++ [x].

Definition delete (selected : list string) (x : string) : list string :=
  filter (fun y => negb (String.eqb x y)) selected.

(** [new Set(array)]. *)
Definition ofArray (ids : list string) : list string :=
  fold_left add ids [].

Definition toggleSelectProduct (selectedProducts : list string)
    (productId : string) : list string :=
  let newSelected := selectedProducts in
  if has newSelected productId
  then delete newSelected productId
  else add newSelected productId.

Definition toggleSelectAll (selectedProducts : list string)
    (paginatedProducts : list Product.t) : list string :=
  if Nat.eqb (List.length selectedProducts) (List.length paginatedProducts)
  then []
  else ofArray (map Product.id paginatedProducts).

Definition selectAllFiltered (filteredProducts : list Product.t)
    : list string :=
  ofArray (map Product.id filteredProducts).

End Selection.

Module Table.

(** The three status texts of [getStockStatusText]. *)
Inductive StatusText : Type := Rupture | Faible | OK.

Definition getStockStatusText (product : Product.t) : StatusText :=
  if Product.stock product =? 0 then Rupture
  else if Product.stock product <=? Product.minStock product then Faible
  else OK.

End Table.

(** ** The product form *)

Module EditModal.

Import JS.

(** A number the form holds: the input handlers store [parseFloat] or
    [parseInt] of the text of the field, which is NaN when the field is
    emptied. *)
Inductive Field (A : Type) : Type :=
| Value (a : A)
| NaN.

Arguments Value {A} a.
Arguments NaN {A}.

(** [formData]: a product without its id; the form keeps the date as a
    text, empty when cleared. *)
Record FormData : Type := mkFormData {
  name : string;
  category : string;
  price : Field Q;
  stock : Z;
  initialStock : Field Z;
  initialStockDate : string;
  minStock : Field Z;
  description : string
}.

(** [x < 0] on a number of the form: a comparison with NaN is false. *)
Definition belowZero {A : Type} (negative : A -> bool) (x : Field A)
    : bool :=
  match x with
  | Value a => negative a
  | NaN => false
  end.

(** [newErrors[key] = message]: the object as the list of its entries in
    insertion order; [validateForm] sets each key at most once. *)
Definition setError (newErrors : list (string * string))
    (key message : string) : list (string * string) :=
  newErrors ++ [(key, message)].

(** The negative rationals of [price < 0]. *)
Definition negativeQ (q : Q) : bool := (Qnum q <? 0)%Z.

(** The errors [validateForm] records. *)
Definition formErrors (formData : FormData) : list (string * string) :=
  let newErrors := [] in
  let newErrors :=
    if String.eqb (trim (name formData)) EmptyString
    then setError newErrors "name" "Le nom du produit est requis"
    else newErrors in
  let newErrors :=
    if String.eqb (trim (category formData)) EmptyString
    then setError newErrors "category" "La catégorie est requise"
    else newErrors in
  let newErrors :=
    if belowZero negativeQ (price formData)
    then setError newErrors "price" "Le prix doit être positif ou zéro"
    else newErrors in
  let newErrors :=
    if belowZero (fun n => n <? 0) (initialStock formData)
    then setError newErrors "initialStock"
                  "Le stock initial doit être positif ou zéro"
    else newErrors in
  let newErrors :=
    if belowZero (fun n => n <? 0) (minStock formData)
    then setError newErrors "minStock"
                  "Le stock minimum doit être positif ou zéro"
    else newErrors in
  let newErrors :=
    if String.eqb (initialStockDate formData) EmptyString
    then setError newErrors "initialStockDate"
                  "La date de stock initial est requise"
    else newErrors in
  newErrors.

(** [validateForm]: [Object.keys(newErrors).length === 0]. *)
Definition validateForm (formData : FormData) : bool :=
  Nat.eqb (List.length (formErrors formData)) 0.

End EditModal.

(** ** More sample records *)

Module Samples.

Import DateFns Fixtures.
Open Scope string_scope.

(** [new Date(text)] on the text of a date input: midnight UTC. *)
Definition newDate (text : string) : Date := parseISODate 0 text.

(** A product whose date text does not parse. *)
Definition widgetUnparsed : Product.t :=
  mkProduct "Widget" "Tools" 90 100 (Some "n/a") (Some 10).


Definition catalogue : list Product.t := [widget; gadget; widgetOversold].

Definition noFilters : StockView.Filters :=
  StockView.mkFilters "" "all" "all" "all" "all" "all"
                      (StockView.mkDateRange "" "").

(** Only the end of the date range is set. *)
Definition untilNewYear : StockView.Filters :=
  StockView.mkFilters "" "all" "all" "all" "all" "all"
                      (StockView.mkDateRange "" "2024-01-01").

(** A register is chosen. *)
Definition register1 : StockView.Filters :=
  StockView.mkFilters "" "all" "all" "all" "Register1" "all"
                      (StockView.mkDateRange "" "").

Definition shownWidget : StockView.Enhanced :=
  StockView.mkEnhanced widget 90 10 false 90 10.

Definition widgetForm : EditModal.FormData :=
  EditModal.mkFormData "Widget" "Tools" (EditModal.Value (25 # 2)%Q) 100
                       (EditModal.Value 100) "2024-01-01"
                       (EditModal.Value 5) "".

(** The same form after its three number fields were emptied. *)
Definition emptiedForm : EditModal.FormData :=
  EditModal.mkFormData "Widget" "Tools" EditModal.NaN 100 EditModal.NaN
                       "2024-01-01" EditModal.NaN "".

(** A form with a blank name and a negative price. *)
Definition badForm : EditModal.FormData :=
  EditModal.mkFormData "  " "Tools" (EditModal.Value (- 1 # 2)%Q) 0
                       (EditModal.Value 3) "2024-01-01"
                       (EditModal.Value 0) "".

Definition fiveRows : list string := ["a"; "b"; "c"; "d"; "e"].

End Samples.

(** ** Lemmas on the building blocks *)

Import JS DateFns Stock.

Lemma dateLeb_TimeValue (a b : Date) :
  Spec.dateLeb a b = true <->
  exists x y, a = TimeValue x /\ b = TimeValue y /\ x <= y.
Proof.
  split.
  - destruct a as [x|], b as [y|]; simpl; try discriminate.
    intros H. exists x, y. apply Z.leb_le in H. auto.
  - intros (x & y & -> & -> & H). simpl. now apply Z.leb_le.
Qed.

Lemma isBefore_TimeValue (a b : Date) :
  isBefore a b = true <->
  exists x y, a = TimeValue x /\ b = TimeValue y /\ x < y.
Proof.
  split.
  - destruct a as [x|], b as [y|]; simpl; try discriminate.
    intros H. exists x, y. apply Z.ltb_lt in H. auto.
  - intros (x & y & -> & -> & H). simpl. now apply Z.ltb_lt.
Qed.

(** [isAfter(a, b) || isEqual(a, b)] is [b <= a]. *)
Lemma isAfter_or_isEqual (a b : Date) :
  isAfter a b || isEqual a b = Spec.dateLeb b a.
Proof.
  destruct a as [x|], b as [y|]; simpl; try reflexivity.
  destruct (Z.ltb_spec y x), (Z.eqb_spec x y), (Z.leb_spec y x);
    simpl; try reflexivity; lia.
Qed.

(** [isBefore(a, b) || a.getTime() === b.getTime()] is [a <= b]. *)
Lemma isBefore_or_sameTime (a b : Date) :
  isBefore a b || sameTime a b = Spec.dateLeb a b.
Proof.
  destruct a as [x|], b as [y|]; simpl; try reflexivity.
  destruct (Z.ltb_spec x y), (Z.eqb_spec x y), (Z.leb_spec x y);
    simpl; try reflexivity; lia.
Qed.

Lemma MS_PER_DAY_pos : 0 < MS_PER_DAY.
Proof. reflexivity. Qed.

(** A time value is at or before the end of a day exactly when its local
    calendar day is not a later one. *)
Lemma le_endOfDay_iff (tz t target : Z) :
  t <= localDay tz target * MS_PER_DAY + (MS_PER_DAY - 1) - tz
  <-> localDay tz t <= localDay tz target.
Proof.
  unfold localDay.
  pose proof MS_PER_DAY_pos as Hpos.
  pose proof (Z.div_mod (t + tz) MS_PER_DAY ltac:(lia)) as Hdm.
  pose proof (Z.mod_pos_bound (t + tz) MS_PER_DAY Hpos) as Hb.
  set (q := (t + tz) / MS_PER_DAY) in *.
  set (r := (t + tz) mod MS_PER_DAY) in *.
  set (k := (target + tz) / MS_PER_DAY).
  nia.
Qed.

(** The reduction that sums quantities, started from any value. *)
Lemma fold_quantity_from (sales : list Sale.t) (start : Z) :
  fold_left (fun sum sale => sum + Sale.quantity sale) sales start
  = start + sumQuantity sales.
Proof.
  unfold sumQuantity. revert start.
  induction sales as [|sale rest IH]; intros start; simpl.
  - lia.
  - rewrite (IH (start + Sale.quantity sale)), (IH (Sale.quantity sale)).
    lia.
Qed.

Lemma sumQuantity_cons (sale : Sale.t) (sales : list Sale.t) :
  sumQuantity (sale :: sales) = Sale.quantity sale + sumQuantity sales.
Proof.
  unfold sumQuantity at 1. simpl. now rewrite fold_quantity_from.
Qed.

Lemma sumQuantity_nil : sumQuantity [] = 0.
Proof. reflexivity. Qed.

Lemma sameProduct_matches (sale : Sale.t) (product : Product.t) :
  sameProduct sale product = true <-> Spec.matches sale product.
Proof.
  unfold sameProduct, Spec.matches, Spec.normalized.
  rewrite andb_true_iff, !String.eqb_eq. tauto.
Qed.

(** A truthy optional string is a present, non-empty one. *)
Lemma truthy_Some (o : option string) :
  truthy o = true <-> exists s, o = Some s /\ s <> EmptyString.
Proof.
  destruct o as [s|]; simpl.
  - rewrite negb_true_iff. split.
    + intros H. exists s. split; [reflexivity|].
      intros ->. discriminate.
    + intros (s' & [= <-] & Hne). now apply String.eqb_neq.
  - split; [discriminate | intros (s & [=] & _)].
Qed.

Lemma truthy_false (o : option string) :
  truthy o = false <-> o = None \/ o = Some EmptyString.
Proof.
  destruct o as [s|]; simpl.
  - rewrite negb_false_iff, String.eqb_eq. split.
    + intros ->. now right.
    + intros [[=]|[= ->]]. reflexivity.
  - split; auto.
Qed.

(** The sales [calculateStockFinal] keeps are the matched sales on or
    after the date. *)
Lemma relevantSales_matched (product : Product.t) (bound : Date)
    (sales : list Sale.t) :
  relevantSales product bound sales
  = filter (fun sale => Spec.dateLeb bound (Sale.date sale))
           (Spec.matched product sales).
Proof.
  unfold relevantSales, Spec.matched.
  induction sales as [|sale rest IH]; simpl; [reflexivity|].
  rewrite isAfter_or_isEqual.
  destruct (sameProduct sale product); simpl.
  - destruct (Spec.dateLeb bound (Sale.date sale)); now rewrite IH.
  - exact IH.
Qed.

(** The sales the historical view keeps are the matched sales up to the end
    of the target day. *)
Lemma salesUpToDate_matched (tz : Z) (sales : list Sale.t)
    (product : Product.t) (target : Date) :
  salesUpToDate tz sales product target
  = filter (fun sale => Spec.dateLeb (Sale.date sale) (endOfDay tz target))
           (Spec.matched product sales).
Proof.
  unfold salesUpToDate, Spec.matched, sameProduct.
  induction sales as [|sale rest IH]; simpl; [reflexivity|].
  rewrite isBefore_or_sameTime, <- andb_assoc.
  destruct (Spec.dateLeb (Sale.date sale) (endOfDay tz target)) eqn:Hdate;
    destruct (String.eqb _ _ && String.eqb _ _); simpl;
    rewrite ?Hdate, IH; reflexivity.
Qed.

Lemma orZero_present (q : Z) : orZero (Some q) = q.
Proof.
  unfold orZero, orElse. destruct (Z.eqb_spec q 0); congruence.
Qed.

Lemma orElse_nonzero (x y : Z) : x <> 0 -> orElse x y = x.
Proof.
  unfold orElse. intros H. destruct (Z.eqb_spec x 0); [contradiction|easy].
Qed.

Lemma orElse_zero (y : Z) : orElse 0 y = y.
Proof. reflexivity. Qed.

(** ** The reconciliation engine *)

Section Engine.

Variable parseISO : string -> Date.
Variable tz : Z.

(** With a date set, the final stock is clamped whatever the initial stock
    is. *)
Lemma calculateStockFinal_unfold (product : Product.t) (sales : list Sale.t)
    (iso : string) :
  Product.initialStockDate product = Some iso -> iso <> EmptyString ->
  calculateStockFinal parseISO product sales
  = Z.max 0 (Product.initialStock product
             - sumQuantity (relevantSales product (parseISO iso) sales)).
Proof.
  intros Hdate Hne. unfold calculateStockFinal. rewrite Hdate.
  apply String.eqb_neq in Hne. now rewrite Hne.
Qed.

Lemma calculateStockFinal_falsy (product : Product.t) (sales : list Sale.t) :
  truthy (Product.initialStockDate product) = false ->
  calculateStockFinal parseISO product sales = Product.initialStock product.
Proof.
  intros H. apply truthy_false in H. unfold calculateStockFinal.
  destruct H as [-> | ->]; reflexivity.
Qed.

(** C5: for a product whose [initialStockDate] is unset and any ledger, with
    no as-of date, the computed current stock is [product.initialStock]; the
    quantity sold reported with no as-of date is the stored, time-unbounded
    total [product.quantitySold || 0]. *)
Theorem calculateStockFinal_undated (product : Product.t)
    (sales : list Sale.t) :
  truthy (Product.initialStockDate product) = false ->
  calculateStockFinal parseISO product sales = Product.initialStock product
  /\ quantitySoldUpToDate (calculateHistoricalStock tz sales product None)
     = orZero (Product.quantitySold product).
Proof.
  intros H. split.
  - now apply calculateStockFinal_falsy.
  - reflexivity.
Qed.

(** C10: with no target date [calculateHistoricalStock] returns the stored
    fields, [historicalStock = product.stock], [quantitySoldUpToDate =
    product.quantitySold] (0 when absent) and [isHistoricalView = false],
    and the result is the same for every sales ledger. *)
Theorem calculateHistoricalStock_no_target (sales : list Sale.t)
    (product : Product.t) :
  calculateHistoricalStock tz sales product None
  = {| historicalStock := Product.stock product;
       quantitySoldUpToDate :=
         match Product.quantitySold product with
         | Some q => q
         | None => 0
         end;
       isHistoricalView := false |}
  /\ (forall (tz' : Z) (sales' : list Sale.t),
        calculateHistoricalStock tz' sales' product None
        = calculateHistoricalStock tz sales product None).
Proof.
  split.
  - unfold calculateHistoricalStock.
    destruct (Product.quantitySold product) as [q|].
    + now rewrite orZero_present.
    + reflexivity.
  - intros tz' sales'. reflexivity.
Qed.

End Engine.

(** C1: on a product with no [initialStockDate], [calculateStockFinal]
    returns the initial stock and leaves the matched sales out: for the
    widget with initial stock 100 and a ledger of two matched sales of 10
    and 5 units it answers 100, where initial stock minus all matched
    sales, clamped at zero, is 85. *)
Theorem calculateStockFinal_undated_ignores_ledger :
  forall parseISO : string -> Date,
    truthy (Product.initialStockDate Fixtures.widgetUndated) = false
    /\ Spec.matched Fixtures.widgetUndated Fixtures.ledger = Fixtures.ledger
    /\ calculateStockFinal parseISO Fixtures.widgetUndated Fixtures.ledger
       = 100
    /\ Spec.undatedStock Fixtures.widgetUndated Fixtures.ledger = 85.
Proof.
  intros parseISO. repeat split; vm_compute; reflexivity.
Qed.

(** ** The aggregation *)

(** C9: on an empty product list every numeric field of the statistics is
    zero and the category breakdown is the empty list. *)
Theorem useStockStatistics_empty (products : list Product.t) :
  let stats := Stats.useStockStatistics products [] in
  Stats.totalProducts stats = 0
  /\ Stats.totalStock stats = 0
  /\ Stats.totalSold stats = 0
  /\ Stats.outOfStock stats = 0
  /\ Stats.lowStock stats = 0
  /\ Stats.totalRevenue stats = 0%Q
  /\ Stats.categoryCounts stats = [].
Proof.
  cbv zeta. unfold Stats.useStockStatistics. simpl. repeat split.
Qed.

(** ** Dated products: sales on or after the initial stock date *)

Section Dated.

Variable parseISO : string -> Date.

(** C4: for a product whose [initialStockDate] is set, [calculateStockFinal]
    returns [max(0, initialStock - sold)], where [sold] sums the matched
    sales dated on or after [initialStockDate]; a matched sale dated
    exactly on [initialStockDate] is part of the sum. *)
Theorem calculateStockFinal_dated (product : Product.t)
    (sales : list Sale.t) (iso : string) :
  Product.initialStockDate product = Some iso ->
  iso <> EmptyString ->
  calculateStockFinal parseISO product sales
  = Z.max 0
      (Product.initialStock product
       - sumQuantity
           (filter (fun sale => Spec.dateLeb (parseISO iso) (Sale.date sale))
                   (Spec.matched product sales)))
  /\ (forall (sale : Sale.t) (t : Z),
        parseISO iso = TimeValue t ->
        Sale.date sale = TimeValue t ->
        Spec.matches sale product ->
        calculateStockFinal parseISO product (sale :: sales)
        = Z.max 0
            (Product.initialStock product
             - (Sale.quantity sale
                + sumQuantity
                    (filter
                       (fun s => Spec.dateLeb (parseISO iso) (Sale.date s))
                       (Spec.matched product sales))))).
Proof.
  intros Hdate Hne. split.
  - rewrite (calculateStockFinal_unfold parseISO product sales iso Hdate Hne).
    now rewrite relevantSales_matched.
  - intros sale t Hparse Hsale Hmatch.
    rewrite (calculateStockFinal_unfold parseISO product _ iso Hdate Hne).
    rewrite relevantSales_matched. unfold Spec.matched. simpl.
    apply sameProduct_matches in Hmatch. rewrite Hmatch. simpl.
    rewrite Hparse, Hsale. simpl. rewrite Z.leb_refl.
    now rewrite sumQuantity_cons.
Qed.

(** C6: [hasEarlySales] answers true exactly when [initialStockDate] is set
    and some matched sale of the ledger is dated strictly before it; when
    every sale of the ledger is dated exactly on [initialStockDate] the
    answer is false. *)
Theorem hasEarlySales_iff (product : Product.t) (sales : list Sale.t) :
  (hasEarlySales parseISO product sales = true <->
   exists iso : string,
     Product.initialStockDate product = Some iso
     /\ iso <> EmptyString
     /\ exists (sale : Sale.t) (t bound : Z),
          In sale sales
          /\ Spec.matches sale product
          /\ Sale.date sale = TimeValue t
          /\ parseISO iso = TimeValue bound
          /\ t < bound)
  /\ (forall iso : string,
        Product.initialStockDate product = Some iso ->
        (forall sale, In sale sales -> Sale.date sale = parseISO iso) ->
        hasEarlySales parseISO product sales = false).
Proof.
  split.
  - unfold hasEarlySales. split.
    + destruct (Product.initialStockDate product) as [iso|];
        [|discriminate].
      destruct (String.eqb_spec iso EmptyString) as [|Hne]; [discriminate|].
      intros H. apply existsb_exists in H.
      destruct H as (sale & Hin & H).
      apply andb_true_iff in H. destruct H as [Hm Hb].
      apply isBefore_TimeValue in Hb. destruct Hb as (t & b & Ht & Hb & Hlt).
      exists iso. repeat split; [assumption|].
      exists sale, t, b. rewrite <- sameProduct_matches. auto.
    + intros (iso & -> & Hne & sale & t & b & Hin & Hm & Ht & Hb & Hlt).
      apply String.eqb_neq in Hne. rewrite Hne.
      apply existsb_exists. exists sale. split; [assumption|].
      apply sameProduct_matches in Hm. rewrite Hm, Ht, Hb. simpl.
      now apply Z.ltb_lt.
  - intros iso Hdate Hon. unfold hasEarlySales. rewrite Hdate.
    destruct (String.eqb iso EmptyString); [reflexivity|].
    apply not_true_is_false. intros H. apply existsb_exists in H.
    destruct H as (sale & Hin & H).
    apply andb_true_iff in H. destruct H as [_ Hb].
    rewrite (Hon sale Hin) in Hb.
    apply isBefore_TimeValue in Hb.
    destruct Hb as (t & b & -> & [= <-] & Hlt). lia.
Qed.

End Dated.

(** ** The historical view *)

Section HistoricalView.

Variable tz : Z.
Variable sales : list Sale.t.

Lemma calculateHistoricalStock_target (product : Product.t) (target : Date) :
  calculateHistoricalStock tz sales product (Some target)
  = {| historicalStock :=
         Z.max 0
           (orElse (Product.initialStock product)
                   (Product.stock product
                    + orZero (Product.quantitySold product))
            - sumQuantity (salesUpToDate tz sales product target));
       quantitySoldUpToDate :=
         sumQuantity (salesUpToDate tz sales product target);
       isHistoricalView := true |}.
Proof. reflexivity. Qed.

(** C2, as the code has it: for every product and target date the
    historical stock is [max(0, baseInitial - sold)], where [sold] is the
    quantity sold up to the target date and [baseInitial] is
    [product.initialStock] exactly when [product.initialStock] is not zero,
    and [product.stock + (product.quantitySold || 0)] exactly when it is
    zero; [product.initialStockDate] plays no part. *)
Theorem calculateHistoricalStock_baseline (product : Product.t)
    (target : Date) :
  let result := calculateHistoricalStock tz sales product (Some target) in
  (Product.initialStock product <> 0 ->
   historicalStock result
   = Z.max 0 (Product.initialStock product - quantitySoldUpToDate result))
  /\ (Product.initialStock product = 0 ->
      historicalStock result
      = Z.max 0 (Product.stock product
                 + orZero (Product.quantitySold product)
                 - quantitySoldUpToDate result))
  /\ (forall initialStockDate : option string,
        calculateHistoricalStock tz sales
          (Product.withInitialStockDate product initialStockDate)
          (Some target)
        = result).
Proof.
  cbv zeta. rewrite calculateHistoricalStock_target. simpl.
  repeat split.
  - intros Hnz. now rewrite orElse_nonzero.
  - intros ->. now rewrite orElse_zero.
Qed.

(** C3: for every product, ledger and target date, the sales
    [calculateHistoricalStock] keeps are the matched sales dated at or
    before the end of the target date's calendar day, and the historical
    [quantitySoldUpToDate] is the sum of their quantities; a matched sale of
    the ledger dated anywhere on that calendar day is one of the sales
    summed, and a sale dated strictly after the end of the day is not. *)
Theorem quantitySoldUpToDate_end_of_day (product : Product.t)
    (target : Date) :
  let relevant :=
    filter (fun sale => Spec.dateLeb (Sale.date sale) (endOfDay tz target))
           (Spec.matched product sales) in
  salesUpToDate tz sales product target = relevant
  /\ quantitySoldUpToDate
       (calculateHistoricalStock tz sales product (Some target))
     = sumQuantity relevant
  /\ (forall sale : Sale.t,
        In sale sales ->
        Spec.matches sale product ->
        Spec.sameLocalDay tz (Sale.date sale) target ->
        In sale relevant)
  /\ (forall sale : Sale.t,
        Spec.afterEndOfDay tz (Sale.date sale) target ->
        ~ In sale relevant).
Proof.
  cbv zeta. rewrite calculateHistoricalStock_target. simpl.
  rewrite salesUpToDate_matched.
  split; [reflexivity|]. split; [reflexivity|]. split.
  - intros sale Hin Hmatch Hday.
    apply filter_In. split.
    + apply filter_In. split; [assumption|].
      now apply sameProduct_matches.
    + unfold Spec.sameLocalDay in Hday.
      destruct (Sale.date sale) as [t|]; [|contradiction].
      destruct target as [t0|]; [|contradiction].
      simpl. apply Z.leb_le. apply le_endOfDay_iff. lia.
  - intros sale Hafter Hin.
    apply filter_In in Hin. destruct Hin as [_ Hle].
    apply dateLeb_TimeValue in Hle.
    destruct Hle as (t & e & Ht & He & Hle).
    unfold Spec.afterEndOfDay in Hafter. rewrite Ht, He in Hafter. lia.
Qed.

End HistoricalView.

(** ** The matcher *)

(** C7: the test the stock computations apply to a sale and a product holds
    exactly when the sale's product name and the product's name are equal
    after lowercasing and trimming, and so are the two categories; both
    [calculateStockFinal] and [calculateHistoricalStock] keep only sales
    that pass it; a sale of product [" widget "] in category ["TOOLS"]
    matches a product named ["Widget"] in category ["Tools"]. *)
Theorem sameProduct_normalized (sale : Sale.t) (product : Product.t) :
  (sameProduct sale product = true <->
   trim (toLowerCase (Sale.product sale))
   = trim (toLowerCase (Product.name product))
   /\ trim (toLowerCase (Sale.category sale))
      = trim (toLowerCase (Product.category product)))
  /\ (forall (bound : Date) (ledger : list Sale.t),
        In sale (relevantSales product bound ledger) ->
        sameProduct sale product = true)
  /\ (forall (tz : Z) (target : Date) (ledger : list Sale.t),
        In sale (salesUpToDate tz ledger product target) ->
        sameProduct sale product = true)
  /\ (Sale.product sale = " widget "%string ->
      Sale.category sale = "TOOLS"%string ->
      Product.name product = "Widget"%string ->
      Product.category product = "Tools"%string ->
      sameProduct sale product = true).
Proof.
  split; [|split; [|split]].
  - apply sameProduct_matches.
  - intros bound ledger Hin. rewrite relevantSales_matched in Hin.
    apply filter_In in Hin. destruct Hin as [Hin _].
    apply filter_In in Hin. tauto.
  - intros tz target ledger Hin. rewrite salesUpToDate_matched in Hin.
    apply filter_In in Hin. destruct Hin as [Hin _].
    apply filter_In in Hin. tauto.
  - intros Hp Hc Hn Hk. unfold sameProduct.
    rewrite Hp, Hc, Hn, Hk. reflexivity.
Qed.

(** ** Stock is never negative *)




(** ** The specification's scenarios and instances of the theorems *)

Module Scenarios.

Import Fixtures.

(** The widget with 100 units on 2024-01-01, 10 sold that day and 5 the day
    before: 90 in stock, early sales of 5 units. *)
Example widget_current_stock :
  calculateStockFinal (parseISODate tz) widget ledger = 90
  /\ hasEarlySales (parseISODate tz) widget ledger = true
  /\ getEarlySalesQuantity (parseISODate tz) widget ledger = 5.
Proof. repeat split; vm_compute; reflexivity. Qed.

(** The same widget as of 2023-12-15: no sale is dated on or before that
    day. *)
Example widget_as_of_mid_december :
  calculateHistoricalStock tz ledger widget (Some (day "2023-12-15"))
  = {| historicalStock := 100;
       quantitySoldUpToDate := 0;
       isHistoricalView := true |}.
Proof. vm_compute. reflexivity. Qed.

(** The historical baseline does not follow [initialStockDate].  As of
    2023-06-30 no sale of the ledger counts.  The oversold widget has no
    date, and the view answers its initial stock of 100, not
    [stock + quantitySold = 120]; the gadget has a date, and the view
    answers [stock + quantitySold = 3], not its initial stock of 0. *)
Lemma baseInitial_by_date_fails :
  let target := Some (day "2023-06-30") in
  (truthy (Product.initialStockDate widgetOversold) = false
   /\ historicalStock (calculateHistoricalStock tz ledger widgetOversold target)
      <> Z.max 0
           (Spec.baseInitial widgetOversold
            - quantitySoldUpToDate
                (calculateHistoricalStock tz ledger widgetOversold target)))
  /\ (truthy (Product.initialStockDate gadget) = true
      /\ historicalStock (calculateHistoricalStock tz ledger gadget target)
         <> Z.max 0
              (Spec.baseInitial gadget
               - quantitySoldUpToDate
                   (calculateHistoricalStock tz ledger gadget target))).
Proof.
  cbv zeta. split; (split; [reflexivity|]); vm_compute; discriminate.
Qed.

Lemma calculateHistoricalStock_baseline_witness :
  historicalStock
    (calculateHistoricalStock tz ledger widgetOversold
       (Some (day "2024-01-01")))
  = 85
  /\ historicalStock
       (calculateHistoricalStock tz ledger gadget (Some (day "2024-01-01")))
     = 3.
Proof.
  split.
  - rewrite (proj1 (calculateHistoricalStock_baseline tz ledger
                      widgetOversold (day "2024-01-01")));
      [vm_compute; reflexivity | discriminate].
  - rewrite (proj1 (proj2 (calculateHistoricalStock_baseline tz ledger
                             gadget (day "2024-01-01"))));
      [vm_compute; reflexivity | reflexivity].
Defined.

Lemma quantitySoldUpToDate_end_of_day_witness :
  quantitySoldUpToDate
    (calculateHistoricalStock tz boundaryLedger widget
       (Some (day "2024-01-01")))
  = 14
  /\ In lastMsSale
        (salesUpToDate tz boundaryLedger widget (day "2024-01-01"))
  /\ ~ In nextMsSale
         (salesUpToDate tz boundaryLedger widget (day "2024-01-01")).
Proof.
  destruct (quantitySoldUpToDate_end_of_day tz boundaryLedger widget
              (day "2024-01-01")) as (Hkept & Hsum & Hon & Hafter).
  split; [|split].
  - rewrite Hsum. vm_compute. reflexivity.
  - rewrite Hkept. apply Hon.
    + simpl. right. left. reflexivity.
    + split; reflexivity.
    + vm_compute. reflexivity.
  - rewrite Hkept. apply Hafter. vm_compute. reflexivity.
Defined.

Lemma calculateStockFinal_dated_witness :
  Product.initialStockDate widget = Some "2024-01-01"%string
  /\ calculateStockFinal (parseISODate tz) widget ledger = 90
  /\ calculateStockFinal (parseISODate tz) widget onDateLedger = 90.
Proof.
  split; [reflexivity|]. split.
  - rewrite (proj1 (calculateStockFinal_dated (parseISODate tz) widget
                      ledger "2024-01-01" eq_refl ltac:(discriminate))).
    vm_compute. reflexivity.
  - unfold onDateLedger.
    rewrite (proj2 (calculateStockFinal_dated (parseISODate tz) widget
                      [] "2024-01-01" eq_refl ltac:(discriminate))
               _ 1704060000000).
    + vm_compute. reflexivity.
    + vm_compute. reflexivity.
    + vm_compute. reflexivity.
    + split; reflexivity.
Defined.

Lemma calculateStockFinal_undated_witness :
  truthy (Product.initialStockDate widgetUndated) = false
  /\ calculateStockFinal (parseISODate tz) widgetUndated ledger = 100.
Proof.
  split; [reflexivity|].
  apply (proj1 (calculateStockFinal_undated (parseISODate tz) tz
                  widgetUndated ledger eq_refl)).
Defined.

Lemma hasEarlySales_iff_witness :
  hasEarlySales (parseISODate tz) widget ledger = true
  /\ hasEarlySales (parseISODate tz) widget onDateLedger = false.
Proof.
  split.
  - apply (proj1 (hasEarlySales_iff (parseISODate tz) widget ledger)).
    exists "2024-01-01"%string.
    split; [reflexivity|]. split; [discriminate|].
    exists (mkSale "Widget" "Tools" (day "2023-12-31") 5),
           1703973600000, 1704060000000.
    split; [simpl; right; left; reflexivity|].
    split; [split; reflexivity|].
    split; [vm_compute; reflexivity|].
    split; [vm_compute; reflexivity|reflexivity].
  - apply (proj2 (hasEarlySales_iff (parseISODate tz) widget onDateLedger)
             "2024-01-01"%string eq_refl).
    intros sale [<-|[]]. reflexivity.
Defined.

Lemma sameProduct_normalized_witness :
  Sale.product untidySale = " widget "%string
  /\ Sale.category untidySale = "TOOLS"%string
  /\ Product.name widget = "Widget"%string
  /\ Product.category widget = "Tools"%string
  /\ sameProduct untidySale widget = true.
Proof.
  do 4 (split; [reflexivity|]).
  apply (proj2 (proj2 (proj2 (sameProduct_normalized untidySale widget))));
    reflexivity.
Defined.



End Scenarios.

(** ** More on the ledger functions *)

Lemma sumQuantity_app (l1 l2 : list Sale.t) :
  sumQuantity (l1 ++ l2) = sumQuantity l1 + sumQuantity l2.
Proof.
  induction l1 as [|sale rest IH].
  - rewrite app_nil_l, sumQuantity_nil. lia.
  - rewrite <- app_comm_cons, !sumQuantity_cons, IH. lia.
Qed.

Lemma sumQuantity_nonneg (l : list Sale.t) :
  (forall sale, In sale l -> 0 <= Sale.quantity sale) ->
  0 <= sumQuantity l.
Proof.
  induction l as [|sale rest IH]; intros Hq.
  - rewrite sumQuantity_nil. lia.
  - rewrite sumQuantity_cons.
    assert (0 <= Sale.quantity sale) by (apply Hq; now left).
    assert (0 <= sumQuantity rest) by (apply IH; intros; apply Hq; now right).
    lia.
Qed.

Lemma sumQuantity_filter_cons (f : Sale.t -> bool) (sale : Sale.t)
    (l : list Sale.t) :
  sumQuantity (filter f (sale :: l))
  = (if f sale then Sale.quantity sale else 0) + sumQuantity (filter f l).
Proof.
  simpl. destruct (f sale); [now rewrite sumQuantity_cons | lia].
Qed.

(** A filter that keeps more sells at least as much, when no quantity is
    negative. *)
Lemma sumQuantity_filter_le (f g : Sale.t -> bool) (l : list Sale.t) :
  (forall sale, In sale l -> 0 <= Sale.quantity sale) ->
  (forall sale, In sale l -> f sale = true -> g sale = true) ->
  sumQuantity (filter f l) <= sumQuantity (filter g l).
Proof.
  induction l as [|sale rest IH]; intros Hq Hfg.
  - simpl. lia.
  - rewrite !sumQuantity_filter_cons.
    assert (Hs : 0 <= Sale.quantity sale) by (apply Hq; now left).
    assert (IH' : sumQuantity (filter f rest) <= sumQuantity (filter g rest)).
    { apply IH; intros; [apply Hq | apply Hfg]; auto; now right. }
    destruct (f sale) eqn:Hf.
    + rewrite (Hfg sale (or_introl eq_refl) Hf). lia.
    + destruct (g sale); lia.
Qed.

Lemma sumQuantity_filter_ext (f g : Sale.t -> bool) (l : list Sale.t) :
  (forall sale, In sale l -> f sale = g sale) ->
  sumQuantity (filter f l) = sumQuantity (filter g l).
Proof.
  intros H. f_equal. apply filter_ext_in. exact H.
Qed.

Lemma sumQuantity_Permutation (l l' : list Sale.t) :
  Permutation l l' -> sumQuantity l = sumQuantity l'.
Proof.
  induction 1 as [|x l l' _ IH|x y l|l l' l'' _ IH1 _ IH2].
  - reflexivity.
  - rewrite !sumQuantity_cons. lia.
  - rewrite !sumQuantity_cons. lia.
  - congruence.
Qed.

Lemma filter_Permutation {A : Type} (f : A -> bool) (l l' : list A) :
  Permutation l l' -> Permutation (filter f l) (filter f l').
Proof.
  induction 1 as [|x l l' _ IH|x y l|l l' l'' _ IH1 _ IH2]; simpl.
  - constructor.
  - destruct (f x); [now constructor | assumption].
  - destruct (f x), (f y); try reflexivity. constructor.
  - now transitivity (filter f l').
Qed.

Lemma existsb_Permutation {A : Type} (f : A -> bool) (l l' : list A) :
  Permutation l l' -> existsb f l = existsb f l'.
Proof.
  intros HP. apply eq_true_iff_eq. rewrite !existsb_exists.
  split; intros (x & Hin & Hx); exists x; split; try assumption.
  - now apply (Permutation_in _ HP).
  - now apply (Permutation_in _ (Permutation_sym HP)).
Qed.

Lemma existsb_false_filter {A : Type} (f : A -> bool) (l : list A) :
  existsb f l = false -> filter f l = [].
Proof.
  induction l as [|x l IH]; simpl; [reflexivity|].
  intros H. apply orb_false_iff in H. destruct H as [Hx Hl].
  rewrite Hx. now apply IH.
Qed.

Section Ledger.

Variable parseISO : string -> Date.

Lemma hasEarlySales_unfold (product : Product.t) (sales : list Sale.t)
    (iso : string) :
  Product.initialStockDate product = Some iso -> iso <> EmptyString ->
  hasEarlySales parseISO product sales
  = existsb (fun sale => sameProduct sale product
                         && isBefore (Sale.date sale) (parseISO iso)) sales.
Proof.
  intros Hdate Hne. unfold hasEarlySales. rewrite Hdate.
  apply String.eqb_neq in Hne. now rewrite Hne.
Qed.

Lemma getEarlySalesQuantity_unfold (product : Product.t)
    (sales : list Sale.t) (iso : string) :
  Product.initialStockDate product = Some iso -> iso <> EmptyString ->
  getEarlySalesQuantity parseISO product sales
  = sumQuantity
      (filter (fun sale => sameProduct sale product
                           && isBefore (Sale.date sale) (parseISO iso))
              sales).
Proof.
  intros Hdate Hne. unfold getEarlySalesQuantity. rewrite Hdate.
  apply String.eqb_neq in Hne. now rewrite Hne.
Qed.

Lemma hasEarlySales_falsy (product : Product.t) (sales : list Sale.t) :
  truthy (Product.initialStockDate product) = false ->
  hasEarlySales parseISO product sales = false
  /\ getEarlySalesQuantity parseISO product sales = 0.
Proof.
  intros H. apply truthy_false in H.
  unfold hasEarlySales, getEarlySalesQuantity.
  destruct H as [-> | ->]; split; reflexivity.
Qed.

(** X1: when the initial stock date parses and every matched sale has a
    valid date, the early sales and the sales [calculateStockFinal] counts
    split the matched sales: their quantities add up to the quantity of all
    matched sales, so the final stock is the initial stock minus the
    matched sales that are not early, clamped at zero. *)
Theorem early_and_counted_sales_split (product : Product.t)
    (sales : list Sale.t) (iso : string) (bound : Z) :
  Product.initialStockDate product = Some iso ->
  iso <> EmptyString ->
  parseISO iso = TimeValue bound ->
  (forall sale, In sale sales -> sameProduct sale product = true ->
                Sale.date sale <> InvalidDate) ->
  getEarlySalesQuantity parseISO product sales
  + sumQuantity (relevantSales product (parseISO iso) sales)
  = sumQuantity (Spec.matched product sales)
  /\ calculateStockFinal parseISO product sales
     = Z.max 0 (Product.initialStock product
                - (sumQuantity (Spec.matched product sales)
                   - getEarlySalesQuantity parseISO product sales)).
Proof.
  intros Hdate Hne Hparse Hvalid.
  assert (Hsplit :
            getEarlySalesQuantity parseISO product sales
            + sumQuantity (relevantSales product (parseISO iso) sales)
            = sumQuantity (Spec.matched product sales)).
  { rewrite (getEarlySalesQuantity_unfold product sales iso Hdate Hne).
    unfold relevantSales, Spec.matched. rewrite Hparse.
    induction sales as [|sale rest IH]; [reflexivity|].
    rewrite !sumQuantity_filter_cons.
    assert (IH' := IH (fun s Hin => Hvalid s (or_intror Hin))).
    destruct (sameProduct sale product) eqn:Hm; simpl; [|lia].
    specialize (Hvalid sale (or_introl eq_refl) Hm).
    destruct (Sale.date sale) as [t|]; [|contradiction]. simpl.
    destruct (Z.ltb_spec t bound), (Z.ltb_spec bound t), (Z.eqb_spec t bound);
      simpl; lia. }
  split; [exact Hsplit|].
  rewrite (calculateStockFinal_unfold parseISO product sales iso Hdate Hne).
  f_equal. lia.
Qed.

(** X2: when [hasEarlySales] answers false the early quantity is zero; when
    it answers true and every sale of the ledger has a positive quantity,
    the early quantity is positive. *)
Theorem hasEarlySales_and_quantity (product : Product.t)
    (sales : list Sale.t) :
  (hasEarlySales parseISO product sales = false ->
   getEarlySalesQuantity parseISO product sales = 0)
  /\ ((forall sale, In sale sales -> 0 < Sale.quantity sale) ->
      hasEarlySales parseISO product sales = true ->
      0 < getEarlySalesQuantity parseISO product sales).
Proof.
  destruct (truthy (Product.initialStockDate product)) eqn:Hset.
  - apply truthy_Some in Hset. destruct Hset as (iso & Hdate & Hne).
    rewrite (hasEarlySales_unfold product sales iso Hdate Hne).
    rewrite (getEarlySalesQuantity_unfold product sales iso Hdate Hne).
    set (early := fun sale => sameProduct sale product
                              && isBefore (Sale.date sale) (parseISO iso)).
    split.
    + intros H. now rewrite (existsb_false_filter early sales H).
    + intros Hpos H. apply existsb_exists in H.
      destruct H as (sale & Hin & Hearly).
      apply in_split in Hin. destruct Hin as (l1 & l2 & ->).
      rewrite filter_app, sumQuantity_app. simpl. rewrite Hearly.
      rewrite sumQuantity_cons.
      assert (0 < Sale.quantity sale).
      { apply Hpos. apply in_or_app. right. now left. }
      assert (0 <= sumQuantity (filter early l1)).
      { apply sumQuantity_nonneg. intros s Hs. apply filter_In in Hs.
        apply Z.lt_le_incl, Hpos, in_or_app. left. tauto. }
      assert (0 <= sumQuantity (filter early l2)).
      { apply sumQuantity_nonneg. intros s Hs. apply filter_In in Hs.
        apply Z.lt_le_incl, Hpos, in_or_app. right. right. tauto. }
      lia.
  - destruct (hasEarlySales_falsy product sales Hset) as [Hhas Hqty].
    rewrite Hhas, Hqty. split; [reflexivity | discriminate].
Qed.

Lemma relevantSales_InvalidDate (product : Product.t) (sales : list Sale.t) :
  relevantSales product InvalidDate sales = [].
Proof.
  unfold relevantSales.
  induction sales as [|sale rest IH]; simpl; [reflexivity|].
  destruct (Sale.date sale); simpl; rewrite andb_false_r; exact IH.
Qed.

Lemma no_sale_before_InvalidDate (product : Product.t)
    (sales : list Sale.t) :
  existsb (fun sale => sameProduct sale product
                       && isBefore (Sale.date sale) InvalidDate) sales
  = false.
Proof.
  induction sales as [|sale rest IH]; simpl; [reflexivity|].
  destruct (Sale.date sale); simpl; rewrite andb_false_r; exact IH.
Qed.

(** X3: when the text of [initialStockDate] is not empty but does not
    parse (the Invalid Date), no sale is on or after it and none is before
    it: the final stock is the initial stock clamped at zero, whatever the
    ledger, and no early sale is reported. *)
Theorem unparsed_initialStockDate (product : Product.t)
    (sales : list Sale.t) (iso : string) :
  Product.initialStockDate product = Some iso ->
  iso <> EmptyString ->
  parseISO iso = InvalidDate ->
  calculateStockFinal parseISO product sales
  = Z.max 0 (Product.initialStock product)
  /\ hasEarlySales parseISO product sales = false
  /\ getEarlySalesQuantity parseISO product sales = 0.
Proof.
  intros Hdate Hne Hparse. split; [|split].
  - rewrite (calculateStockFinal_unfold parseISO product sales iso Hdate Hne).
    rewrite Hparse, relevantSales_InvalidDate, sumQuantity_nil.
    f_equal. lia.
  - rewrite (hasEarlySales_unfold product sales iso Hdate Hne), Hparse.
    apply no_sale_before_InvalidDate.
  - rewrite (getEarlySalesQuantity_unfold product sales iso Hdate Hne), Hparse.
    rewrite (existsb_false_filter _ _
               (no_sale_before_InvalidDate product sales)).
    reflexivity.
Qed.

(** X4: when no sale has a negative quantity, the final stock never
    exceeds the initial stock clamped at zero, and recording more sales
    never raises it. *)
Theorem calculateStockFinal_antitone (product : Product.t)
    (sales more : list Sale.t) :
  (forall sale, In sale (more ++ sales) -> 0 <= Sale.quantity sale) ->
  calculateStockFinal parseISO product (more ++ sales)
  <= calculateStockFinal parseISO product sales
  /\ calculateStockFinal parseISO product sales
     <= Z.max 0 (Product.initialStock product).
Proof.
  intros Hq.
  destruct (truthy (Product.initialStockDate product)) eqn:Hset.
  - apply truthy_Some in Hset. destruct Hset as (iso & Hdate & Hne).
    rewrite !(calculateStockFinal_unfold parseISO product _ iso Hdate Hne).
    unfold relevantSales. rewrite filter_app, sumQuantity_app.
    set (f := fun sale => _).
    assert (0 <= sumQuantity (filter f more)).
    { apply sumQuantity_nonneg. intros s Hs. apply filter_In in Hs.
      apply Hq, in_or_app. left. tauto. }
    assert (0 <= sumQuantity (filter f sales)).
    { apply sumQuantity_nonneg. intros s Hs. apply filter_In in Hs.
      apply Hq, in_or_app. right. tauto. }
    lia.
  - rewrite !calculateStockFinal_falsy by assumption. lia.
Qed.

(** X5: the three ledger functions do not depend on the order of the
    ledger: two ledgers with the same sales, in any order, give the same
    final stock, the same early-sales flag and the same early quantity. *)
Theorem ledger_order_irrelevant (product : Product.t)
    (sales sales' : list Sale.t) :
  Permutation sales sales' ->
  calculateStockFinal parseISO product sales
  = calculateStockFinal parseISO product sales'
  /\ hasEarlySales parseISO product sales
     = hasEarlySales parseISO product sales'
  /\ getEarlySalesQuantity parseISO product sales
     = getEarlySalesQuantity parseISO product sales'.
Proof.
  intros HP.
  unfold calculateStockFinal, hasEarlySales, getEarlySalesQuantity.
  destruct (Product.initialStockDate product) as [iso|];
    [|repeat split].
  destruct (String.eqb iso EmptyString); [repeat split|].
  split; [|split].
  - unfold relevantSales. f_equal. f_equal.
    apply sumQuantity_Permutation. now apply filter_Permutation.
  - now apply existsb_Permutation.
  - apply sumQuantity_Permutation. now apply filter_Permutation.
Qed.

End Ledger.

(** ** More on the historical view *)

Lemma localDay_mono (tz t1 t2 : Z) :
  t1 <= t2 -> localDay tz t1 <= localDay tz t2.
Proof.
  intros H. unfold localDay. apply Z.div_le_mono; [reflexivity | lia].
Qed.

Lemma endOfDay_localDay (tz t1 t2 : Z) :
  localDay tz t1 = localDay tz t2 ->
  endOfDay tz (TimeValue t1) = endOfDay tz (TimeValue t2).
Proof. intros H. simpl. now rewrite H. Qed.

Lemma dateLeb_endOfDay_mono (tz t1 t2 : Z) (d : Date) :
  t1 <= t2 ->
  Spec.dateLeb d (endOfDay tz (TimeValue t1)) = true ->
  Spec.dateLeb d (endOfDay tz (TimeValue t2)) = true.
Proof.
  intros Hle. destruct d as [t|]; simpl; [|discriminate].
  rewrite !Z.leb_le. pose proof (localDay_mono tz t1 t2 Hle).
  pose proof MS_PER_DAY_pos. nia.
Qed.

(** With every matched sale at or before the end of the target day, the
    historical view keeps all matched sales. *)
Lemma salesUpToDate_all (tz : Z) (sales : list Sale.t)
    (product : Product.t) (target : Date) :
  (forall sale, In sale sales -> sameProduct sale product = true ->
                Spec.dateLeb (Sale.date sale) (endOfDay tz target) = true) ->
  salesUpToDate tz sales product target = Spec.matched product sales.
Proof.
  intros Hall. rewrite salesUpToDate_matched.
  unfold Spec.matched.
  induction sales as [|sale rest IH]; simpl; [reflexivity|].
  assert (IH' := IH (fun s Hin => Hall s (or_intror Hin))).
  destruct (sameProduct sale product) eqn:Hm; simpl; [|exact IH'].
  rewrite (Hall sale (or_introl eq_refl) Hm). now rewrite IH'.
Qed.

(** The matched sales split into the early ones and the ones on or after
    a valid bound, when their dates are valid. *)
Lemma matched_split (product : Product.t) (sales : list Sale.t) (bound : Z) :
  (forall sale, In sale sales -> sameProduct sale product = true ->
                Sale.date sale <> InvalidDate) ->
  sumQuantity
    (filter (fun sale => sameProduct sale product
                         && isBefore (Sale.date sale) (TimeValue bound))
            sales)
  + sumQuantity (relevantSales product (TimeValue bound) sales)
  = sumQuantity (Spec.matched product sales).
Proof.
  intros Hvalid. unfold relevantSales, Spec.matched.
  induction sales as [|sale rest IH]; [reflexivity|].
  rewrite !sumQuantity_filter_cons.
  assert (IH' := IH (fun s Hin => Hvalid s (or_intror Hin))).
  destruct (sameProduct sale product) eqn:Hm; simpl; [|lia].
  specialize (Hvalid sale (or_introl eq_refl) Hm).
  destruct (Sale.date sale) as [t|]; [|contradiction]. simpl.
  destruct (Z.ltb_spec t bound), (Z.ltb_spec bound t), (Z.eqb_spec t bound);
    simpl; lia.
Qed.

Section HistoricalMore.

Variable tz : Z.
Variable sales : list Sale.t.

(** X6: when no sale has a negative quantity, a later target date never
    lowers the quantity sold up to the date and never raises the historical
    stock. *)
Theorem calculateHistoricalStock_antitone (product : Product.t)
    (t1 t2 : Z) :
  (forall sale, In sale sales -> 0 <= Sale.quantity sale) ->
  t1 <= t2 ->
  quantitySoldUpToDate
    (calculateHistoricalStock tz sales product (Some (TimeValue t1)))
  <= quantitySoldUpToDate
       (calculateHistoricalStock tz sales product (Some (TimeValue t2)))
  /\ historicalStock
       (calculateHistoricalStock tz sales product (Some (TimeValue t2)))
     <= historicalStock
          (calculateHistoricalStock tz sales product (Some (TimeValue t1))).
Proof.
  intros Hq Hle.
  rewrite !calculateHistoricalStock_target. simpl historicalStock.
  simpl quantitySoldUpToDate.
  assert (Hsold :
            sumQuantity (salesUpToDate tz sales product (TimeValue t1))
            <= sumQuantity (salesUpToDate tz sales product (TimeValue t2))).
  { rewrite !salesUpToDate_matched.
    apply sumQuantity_filter_le.
    - intros sale Hin. apply Hq. unfold Spec.matched in Hin.
      apply filter_In in Hin. tauto.
    - intros sale _. now apply dateLeb_endOfDay_mono. }
  split; [exact Hsold | lia].
Qed.

(** X7: as of an Invalid Date (the text of the date input did not parse)
    the view still counts as historical, keeps no sale, and shows the
    baseline clamped at zero. *)
Theorem calculateHistoricalStock_InvalidDate (product : Product.t) :
  calculateHistoricalStock tz sales product (Some InvalidDate)
  = {| historicalStock :=
         Z.max 0 (orElse (Product.initialStock product)
                         (Product.stock product
                          + orZero (Product.quantitySold product)));
       quantitySoldUpToDate := 0;
       isHistoricalView := true |}.
Proof.
  rewrite calculateHistoricalStock_target.
  assert (Hnone : salesUpToDate tz sales product InvalidDate = []).
  { rewrite salesUpToDate_matched. simpl.
    induction (Spec.matched product sales) as [|sale rest IH]; simpl;
      [reflexivity|].
    destruct (Sale.date sale); exact IH. }
  rewrite Hnone, sumQuantity_nil. f_equal. f_equal. lia.
Qed.

(** X8: two target dates on the same local calendar day give the same
    result: only the day of the target date matters. *)
Theorem calculateHistoricalStock_same_day (product : Product.t)
    (t1 t2 : Z) :
  localDay tz t1 = localDay tz t2 ->
  calculateHistoricalStock tz sales product (Some (TimeValue t1))
  = calculateHistoricalStock tz sales product (Some (TimeValue t2)).
Proof.
  intros Hday. rewrite !calculateHistoricalStock_target.
  rewrite !salesUpToDate_matched.
  now rewrite (endOfDay_localDay tz t1 t2 Hday).
Qed.

(** X9: for a product with a parsed initial stock date and a non-zero
    initial stock, as of a day no matched sale is after, the historical
    view subtracts the early sales as well as the ones [calculateStockFinal]
    counts; the two stocks agree when [hasEarlySales] answers false. *)
Theorem historical_view_after_last_sale (parseISO : string -> Date)
    (product : Product.t) (target : Date) (iso : string) (bound : Z) :
  Product.initialStockDate product = Some iso ->
  iso <> EmptyString ->
  parseISO iso = TimeValue bound ->
  Product.initialStock product <> 0 ->
  (forall sale, In sale sales -> sameProduct sale product = true ->
                Spec.dateLeb (Sale.date sale) (endOfDay tz target) = true) ->
  historicalStock (calculateHistoricalStock tz sales product (Some target))
  = Z.max 0 (Product.initialStock product
             - (getEarlySalesQuantity parseISO product sales
                + sumQuantity (relevantSales product (parseISO iso) sales)))
  /\ (hasEarlySales parseISO product sales = false ->
      historicalStock
        (calculateHistoricalStock tz sales product (Some target))
      = calculateStockFinal parseISO product sales).
Proof.
  intros Hdate Hne Hparse Hnz Hall.
  assert (Hvalid : forall sale, In sale sales ->
                                sameProduct sale product = true ->
                                Sale.date sale <> InvalidDate).
  { intros sale Hin Hm Hbad. specialize (Hall sale Hin Hm).
    rewrite Hbad in Hall. discriminate. }
  assert (Hview :
            historicalStock
              (calculateHistoricalStock tz sales product (Some target))
            = Z.max 0 (Product.initialStock product
                       - sumQuantity (Spec.matched product sales))).
  { rewrite calculateHistoricalStock_target. simpl.
    rewrite (salesUpToDate_all tz sales product target Hall).
    now rewrite orElse_nonzero. }
  pose proof (matched_split product sales bound Hvalid) as Hsplit.
  rewrite (getEarlySalesQuantity_unfold parseISO product sales iso Hdate Hne).
  rewrite (calculateStockFinal_unfold parseISO product sales iso Hdate Hne).
  rewrite (hasEarlySales_unfold parseISO product sales iso Hdate Hne).
  rewrite Hparse, Hview. split.
  - f_equal. lia.
  - intros Hnone. rewrite (existsb_false_filter _ _ Hnone) in Hsplit.
    rewrite sumQuantity_nil in Hsplit. f_equal. lia.
Qed.

End HistoricalMore.

(** ** The sales filters of the stock component *)

Lemma nonEmpty_false (s : string) :
  StockView.nonEmpty s = false <-> s = EmptyString.
Proof.
  unfold StockView.nonEmpty. rewrite negb_false_iff. apply String.eqb_eq.
Qed.

Lemma nonEmpty_true (s : string) :
  StockView.nonEmpty s = true <-> s <> EmptyString.
Proof.
  unfold StockView.nonEmpty. rewrite negb_true_iff. apply String.eqb_neq.
Qed.

Lemma differs_false (a b : string) :
  StockView.differs a b = false <-> a = b.
Proof.
  unfold StockView.differs. rewrite negb_false_iff. apply String.eqb_eq.
Qed.

(** Membership in a list filtered only when a switch is on. *)
Lemma In_filter_if {A : Type} (b : bool) (f : A -> bool) (l : list A)
    (x : A) :
  In x (if b then filter f l else l)
  <-> In x l /\ (b = false \/ f x = true).
Proof.
  destruct b.
  - rewrite filter_In. intuition discriminate.
  - intuition.
Qed.

Lemma existsb_eqb_In (x : string) (l : list string) :
  existsb (String.eqb x) l = true <-> In x l.
Proof.
  rewrite existsb_exists. split.
  - intros (y & Hin & Heq). apply String.eqb_eq in Heq. now subst.
  - intros Hin. exists x. split; [assumption | apply String.eqb_refl].
Qed.

Lemma distinct_from_spec (l acc : list string) :
  let result :=
    fold_left (fun seen c =>
                 if existsb (String.eqb c) seen then seen else seen ++ [c])
              l acc in
  (forall x, In x result <-> In x acc \/ In x l)
  /\ (NoDup acc -> NoDup result).
Proof.
  cbv zeta. revert acc.
  induction l as [|c rest IH]; intros acc; simpl.
  - split; [intros x; tauto | auto].
  - destruct (IH (if existsb (String.eqb c) acc then acc else acc ++ [c]))
      as [Hin Hnd].
    destruct (existsb (String.eqb c) acc) eqn:Hc.
    + apply existsb_eqb_In in Hc. split.
      * intros x. rewrite Hin. intuition (subst; auto).
      * exact Hnd.
    + split.
      * intros x. rewrite Hin, in_app_iff. simpl. tauto.
      * intros Hacc. apply Hnd.
        apply NoDup_app; [assumption | repeat constructor; auto | ].
        intros x Hx [<-|[]]. apply existsb_eqb_In in Hx. congruence.
Qed.

Lemma distinct_In (l : list string) (x : string) :
  In x (Stats.distinct l) <-> In x l.
Proof.
  unfold Stats.distinct.
  rewrite (proj1 (distinct_from_spec l [])). simpl. tauto.
Qed.

Lemma distinct_NoDup (l : list string) : NoDup (Stats.distinct l).
Proof.
  unfold Stats.distinct. apply (proj2 (distinct_from_spec l [])).
  constructor.
Qed.

Section SalesFilters.

Variable tz : Z.
Variable newDate : string -> Date.

Import StockView.

Lemma matchesDateRange_spec (filters : Filters) (sale : Sale.t) :
  matchesDateRange tz newDate filters sale = true
  <-> (start (dateRange filters) = EmptyString
       \/ Spec.dateLeb
            (startOfDay tz (newDate (start (dateRange filters))))
            (Sale.date sale) = true)
      /\ (end_ (dateRange filters) = EmptyString
          \/ Spec.dateLeb
               (Sale.date sale)
               (endOfDay tz (newDate (end_ (dateRange filters)))) = true).
Proof.
  unfold matchesDateRange.
  rewrite isAfter_or_isEqual, isBefore_or_sameTime.
  destruct (nonEmpty (start (dateRange filters))) eqn:Hs;
    destruct (nonEmpty (end_ (dateRange filters))) eqn:He;
    try apply nonEmpty_true in Hs; try apply nonEmpty_false in Hs;
    try apply nonEmpty_true in He; try apply nonEmpty_false in He;
    simpl; rewrite ?andb_true_iff; intuition congruence.
Qed.

(** X10: a sale is one of the filtered sales exactly when it is in the
    ledger, is dated from the start of the start day (when a start is set)
    to the end of the end day (when an end is set), both inclusive, and
    has the chosen register and the chosen seller (when they are not
    ["all"]); with no filter set the whole ledger comes back. *)
Theorem getFilteredSales_In (sales : list Sale.t) (filters : Filters)
    (sale : Sale.t) :
  (In sale (getFilteredSales tz newDate sales filters)
   <-> In sale sales
       /\ (start (dateRange filters) = EmptyString
           \/ Spec.dateLeb
                (startOfDay tz (newDate (start (dateRange filters))))
                (Sale.date sale) = true)
       /\ (end_ (dateRange filters) = EmptyString
           \/ Spec.dateLeb
                (Sale.date sale)
                (endOfDay tz (newDate (end_ (dateRange filters)))) = true)
       /\ (filterRegister filters = "all"%string
           \/ Sale.register sale = filterRegister filters)
       /\ (filterSeller filters = "all"%string
           \/ Sale.seller sale = filterSeller filters))
  /\ (hasSalesFilters filters = false ->
      getFilteredSales tz newDate sales filters = sales).
Proof.
  split.
  - unfold getFilteredSales. cbv zeta.
    rewrite !In_filter_if, !String.eqb_eq, !differs_false.
    rewrite matchesDateRange_spec, orb_false_iff, !nonEmpty_false.
    intuition congruence.
  - unfold hasSalesFilters, getFilteredSales. cbv zeta.
    intros H. rewrite !orb_false_iff in H.
    destruct H as [[[Hr Hs] Hst] Hen]. now rewrite Hr, Hs, Hst, Hen.
Qed.

(** X11: when only the end of the date range is set (no start, every
    register, every seller), the sales the historical view counts for a
    product are the filtered sales that match it, so the quantity it shows
    is the quantity of those sales. *)
Theorem historical_quantity_of_filtered_sales (sales : list Sale.t)
    (filters : Filters) (product : Product.t) :
  start (dateRange filters) = EmptyString ->
  end_ (dateRange filters) <> EmptyString ->
  filterRegister filters = "all"%string ->
  filterSeller filters = "all"%string ->
  targetDate newDate filters = Some (newDate (end_ (dateRange filters)))
  /\ salesUpToDate tz sales product (newDate (end_ (dateRange filters)))
     = Spec.matched product (getFilteredSales tz newDate sales filters)
  /\ quantitySoldUpToDate
       (calculateHistoricalStock tz sales product
          (targetDate newDate filters))
     = sumQuantity
         (Spec.matched product (getFilteredSales tz newDate sales filters)).
Proof.
  intros Hstart Hend Hreg Hsel.
  assert (Htarget :
            targetDate newDate filters
            = Some (newDate (end_ (dateRange filters)))).
  { unfold targetDate. apply nonEmpty_true in Hend. now rewrite Hend. }
  assert (Hsales :
            salesUpToDate tz sales product
              (newDate (end_ (dateRange filters)))
            = Spec.matched product
                (getFilteredSales tz newDate sales filters)).
  { rewrite salesUpToDate_matched.
    unfold getFilteredSales. cbv zeta.
    rewrite Hreg, Hsel, Hstart. simpl.
    pose proof Hend as Hend'. apply nonEmpty_true in Hend'. rewrite Hend'.
    unfold Spec.matched.
    induction sales as [|sale rest IH]; simpl; [reflexivity|].
    assert (Hm : matchesDateRange tz newDate filters sale
                 = Spec.dateLeb
                     (Sale.date sale)
                     (endOfDay tz (newDate (end_ (dateRange filters))))).
    { unfold matchesDateRange. rewrite Hstart, Hend'. simpl.
      apply isBefore_or_sameTime. }
    rewrite Hm.
    destruct (sameProduct sale product) eqn:Hsame;
      destruct (Spec.dateLeb _ _) eqn:Hd; simpl;
      rewrite ?Hsame, ?Hd, IH; reflexivity. }
  split; [exact Htarget|]. split; [exact Hsales|].
  rewrite Htarget, calculateHistoricalStock_target. simpl.
  now rewrite Hsales.
Qed.

End SalesFilters.

(** ** Enhanced products and the product filters *)

Section Enhanced.

Variable tz : Z.
Variable newDate : string -> Date.
Variable sales : list Sale.t.
Variable products : list Product.t.

Import StockView.

(** X13: the enhanced products are the products, in their order, each with
    the figures to display.  With an empty date range every one shows its
    stored stock and stored quantity sold and is not historical; with a
    start or an end set every one is historical and shows a stock that is
    not negative, as of the end date when there is one. *)
Theorem enhancedProducts_view (filters : Filters) :
  let shown := enhancedProducts tz newDate sales products filters in
  map base shown = products
  /\ (start (dateRange filters) = EmptyString ->
      end_ (dateRange filters) = EmptyString ->
      forall e, In e shown ->
        displayStock e = Product.stock (base e)
        /\ displayQuantitySold e = orZero (Product.quantitySold (base e))
        /\ StockView.isHistoricalView e = false)
  /\ ((start (dateRange filters) <> EmptyString
       \/ end_ (dateRange filters) <> EmptyString) ->
      forall e, In e shown ->
        0 <= displayStock e /\ StockView.isHistoricalView e = true)
  /\ (end_ (dateRange filters) <> EmptyString ->
      forall e, In e shown ->
        displayStock e
        = historicalStock
            (calculateHistoricalStock tz sales (base e)
               (Some (newDate (end_ (dateRange filters)))))).
Proof.
  cbv zeta. unfold enhancedProducts.
  split; [|split; [|split]].
  - rewrite map_map. simpl. apply map_id.
  - intros Hs He e Hin. apply in_map_iff in Hin.
    destruct Hin as (p & <- & _). unfold targetDate.
    rewrite Hs, He. simpl. auto.
  - intros Hset e Hin. apply in_map_iff in Hin.
    destruct Hin as (p & <- & _).
    assert (Ht : exists target, targetDate newDate filters = Some target).
    { unfold targetDate.
      destruct (nonEmpty (end_ (dateRange filters))) eqn:He;
        [eauto|].
      destruct (nonEmpty (start (dateRange filters))) eqn:Hs; [eauto|].
      apply nonEmpty_false in He, Hs. tauto. }
    destruct Ht as (target & ->). simpl. split; [lia | reflexivity].
  - intros He e Hin. apply in_map_iff in Hin.
    destruct Hin as (p & <- & _). unfold targetDate.
    apply nonEmpty_true in He. now rewrite He.
Qed.

(** X14: after [clearAllFilters] no filter is active, the filtered sales
    are the whole ledger, the products with filtered sales are all the
    products, and no target date is left for the historical view. *)
Theorem clearAllFilters_resets :
  hasActiveFilters clearAllFilters = false
  /\ getFilteredSales tz newDate sales clearAllFilters = sales
  /\ getProductsWithFilteredSales tz newDate sales products clearAllFilters
     = products
  /\ targetDate newDate clearAllFilters = None
  /\ map displayStock
         (enhancedProducts tz newDate sales products clearAllFilters)
     = map Product.stock products.
Proof.
  repeat split.
  unfold enhancedProducts. rewrite map_map. reflexivity.
Qed.

Lemma sameProduct_key (sale : Sale.t) (product : Product.t) :
  sameProduct sale product = true -> saleKey sale = productKey product.
Proof.
  intros H. apply sameProduct_matches in H. destruct H as [Hn Hc].
  unfold saleKey, productKey. unfold Spec.normalized in Hn, Hc.
  now rewrite Hn, Hc.
Qed.

(** Two texts joined by a bar are equal only part by part, when the first
    parts hold no bar. *)
Lemma bar_joined_eq (a c b d : string) :
  ~ In "|"%char (list_ascii_of_string a) ->
  ~ In "|"%char (list_ascii_of_string c) ->
  (a ++ "|" ++ b = c ++ "|" ++ d)%string -> a = c /\ b = d.
Proof.
  revert c. induction a as [|x a IH]; intros [|y c] Ha Hc Heq; simpl in *.
  - injection Heq as Heq. auto.
  - injection Heq as Hy _. subst y. exfalso. apply Hc. now left.
  - injection Heq as Hx _. subst x. exfalso. apply Ha. now left.
  - injection Heq as Hxy Heq. subst y.
    destruct (IH c) as [-> ->]; auto.
Qed.

(** X15: with a sales filter on, a product is kept exactly when it is in
    the list and its key [name|category] is the key of a filtered sale.
    Every product a filtered sale matches is kept; and a kept product is
    matched by a filtered sale when the normalized names hold no bar. *)
Theorem getProductsWithFilteredSales_In (filters : Filters)
    (product : Product.t) :
  hasSalesFilters filters = true ->
  let kept :=
    getProductsWithFilteredSales tz newDate sales products filters in
  let filtered := getFilteredSales tz newDate sales filters in
  (In product kept
   <-> In product products
       /\ exists sale, In sale filtered
                       /\ saleKey sale = productKey product)
  /\ (In product products ->
      (exists sale, In sale filtered /\ sameProduct sale product = true) ->
      In product kept)
  /\ (~ In "|"%char
          (list_ascii_of_string (trim (toLowerCase (Product.name product)))) ->
      (forall sale, In sale filtered ->
         ~ In "|"%char
              (list_ascii_of_string
                 (trim (toLowerCase (Sale.product sale))))) ->
      In product kept ->
      exists sale, In sale filtered /\ sameProduct sale product = true).
Proof.
  intros Hon. cbv zeta.
  assert (Hiff :
            In product
               (getProductsWithFilteredSales tz newDate sales products
                  filters)
            <-> In product products
                /\ exists sale,
                     In sale (getFilteredSales tz newDate sales filters)
                     /\ saleKey sale = productKey product).
  { unfold getProductsWithFilteredSales. cbv zeta.
    assert (Hoff :
              String.eqb (filterRegister filters) "all"
              && String.eqb (filterSeller filters) "all"
              && negb (nonEmpty (start (dateRange filters)))
              && negb (nonEmpty (end_ (dateRange filters))) = false).
    { unfold hasSalesFilters, differs in Hon.
      destruct (String.eqb (filterRegister filters) "all"),
               (String.eqb (filterSeller filters) "all"),
               (nonEmpty (start (dateRange filters))),
               (nonEmpty (end_ (dateRange filters)));
        simpl in *; congruence. }
    rewrite Hoff, filter_In, existsb_eqb_In, distinct_In, in_map_iff.
    split.
    - intros (Hin & sale & Hk & Hs). eauto.
    - intros (Hin & sale & Hs & Hk). eauto. }
  split; [exact Hiff|]. split.
  - intros Hin (sale & Hs & Hm). apply Hiff. split; [assumption|].
    exists sale. split; [assumption|]. now apply sameProduct_key.
  - intros Hp Hsales Hkept. apply Hiff in Hkept.
    destruct Hkept as (_ & sale & Hs & Hk).
    exists sale. split; [assumption|].
    unfold saleKey, productKey in Hk.
    apply bar_joined_eq in Hk; [|now apply Hsales|assumption].
    apply sameProduct_matches. exact Hk.
Qed.

End Enhanced.

Section ProductFilters.

Import StockView.

(** X16: for a displayed stock and a minimum stock that are not negative,
    exactly one of the three statuses ["in_stock"], ["low_stock"] and
    ["out_of_stock"] keeps a product; any other text of the status filter
    keeps every product. *)
Theorem statusKeeps_partition (filters : Filters) (e : Enhanced) :
  0 <= displayStock e ->
  0 <= Product.minStock (base e) ->
  let keeps status :=
    statusKeeps
      (mkFilters (searchTerm filters) (filterCategory filters) status
                 (filterStockLevel filters) (filterRegister filters)
                 (filterSeller filters) (dateRange filters)) e in
  List.length (filter keeps ["in_stock"; "low_stock"; "out_of_stock"]%string)
  = 1%nat
  /\ (forall status,
        ~ In status ["in_stock"; "low_stock"; "out_of_stock"]%string ->
        keeps status = true).
Proof.
  intros Hstock Hmin. cbv zeta. split.
  - unfold statusKeeps. simpl.
    destruct (Z.ltb_spec (Product.minStock (base e)) (displayStock e)),
             (Z.ltb_spec 0 (displayStock e)),
             (Z.leb_spec (displayStock e) (Product.minStock (base e))),
             (Z.eqb_spec (displayStock e) 0);
      simpl; try reflexivity; lia.
  - intros status Hnot. unfold statusKeeps. simpl in *.
    destruct (String.eqb_spec status "in_stock");
      [exfalso; apply Hnot; subst; auto|].
    destruct (String.eqb_spec status "low_stock");
      [exfalso; apply Hnot; subst; auto|].
    destruct (String.eqb_spec status "out_of_stock");
      [exfalso; apply Hnot; subst; auto|].
    reflexivity.
Qed.

(** X17: for a displayed stock that is not negative, exactly one of the
    four stock levels ["high"], ["medium"], ["low"] and ["empty"] keeps a
    product: more than 100, 10 to 100, 1 to 9, and 0. *)
Theorem stockLevelKeeps_partition (filters : Filters) (e : Enhanced) :
  0 <= displayStock e ->
  let keeps level :=
    stockLevelKeeps
      (mkFilters (searchTerm filters) (filterCategory filters)
                 (filterStatus filters) level (filterRegister filters)
                 (filterSeller filters) (dateRange filters)) e in
  List.length (filter keeps ["high"; "medium"; "low"; "empty"]%string)
  = 1%nat
  /\ (keeps "high"%string = true <-> 100 < displayStock e)
  /\ (keeps "medium"%string = true <-> 10 <= displayStock e <= 100)
  /\ (keeps "low"%string = true <-> 1 <= displayStock e <= 9)
  /\ (keeps "empty"%string = true <-> displayStock e = 0).
Proof.
  intros Hstock. cbv zeta. unfold stockLevelKeeps. simpl.
  rewrite !andb_true_iff, !Z.ltb_lt, !Z.leb_le, Z.eqb_eq.
  split; [|repeat split; lia].
  destruct (Z.ltb_spec 100 (displayStock e)),
           (Z.leb_spec 10 (displayStock e)),
           (Z.leb_spec (displayStock e) 100),
           (Z.ltb_spec 0 (displayStock e)),
           (Z.ltb_spec (displayStock e) 10),
           (Z.eqb_spec (displayStock e) 0);
    simpl; try reflexivity; lia.
Qed.

Lemma missingProducts_from (existing : list string) (sales : list Sale.t)
    (acc : list string) :
  let result :=
    fold_left
      (fun missingItems sale =>
         let productName := toLowerCase (Sale.product sale) in
         if negb (existsb (String.eqb productName) existing)
         then if existsb (String.eqb (Sale.product sale)) missingItems
              then missingItems
              else missingItems ++ [Sale.product sale]
         else missingItems)
      sales acc in
  (forall x, In x result
             <-> In x acc
                 \/ exists sale, In sale sales /\ Sale.product sale = x
                                 /\ ~ In (toLowerCase x) existing)
  /\ (NoDup acc -> NoDup result).
Proof.
  cbv zeta. revert acc.
  induction sales as [|sale rest IH]; intros acc; simpl.
  - split; [|auto]. intros x. split; [auto|].
    intros [H|(s & [] & _)]. exact H.
  - match goal with
    | |- context [fold_left _ rest ?a] => destruct (IH a) as [Hin Hnd]
    end.
    destruct (existsb (String.eqb (toLowerCase (Sale.product sale)))
                      existing) eqn:Hex; simpl in *.
    + split; [|exact Hnd]. intros x. rewrite Hin.
      apply existsb_eqb_In in Hex. split.
      * intros [H|(s & Hs & Hp & Hno)]; [now left|].
        right. exists s. auto.
      * intros [H|(s & [<-|Hs] & Hp & Hno)]; [now left| |].
        -- subst x. contradiction.
        -- right. exists s. auto.
    + assert (Hnew : ~ In (toLowerCase (Sale.product sale)) existing).
      { intros H. apply existsb_eqb_In in H. congruence. }
      destruct (existsb (String.eqb (Sale.product sale)) acc) eqn:Hacc.
      * apply existsb_eqb_In in Hacc.
        split; [|exact Hnd]. intros x. rewrite Hin. split.
        -- intros [H|(s & Hs & Hp & Hno)]; [now left|].
           right. exists s. auto.
        -- intros [H|(s & [<-|Hs] & Hp & Hno)]; [now left| |].
           ++ subst x. now left.
           ++ right. exists s. auto.
      * assert (Hfresh : ~ In (Sale.product sale) acc).
        { intros H. apply existsb_eqb_In in H. congruence. }
        split.
        -- intros x. rewrite Hin, in_app_iff. simpl. split.
           ++ intros [[H|[<-|[]]]|(s & Hs & Hp & Hno)].
              ** now left.
              ** right. exists sale. auto.
              ** right. exists s. auto.
           ++ intros [H|(s & [<-|Hs] & Hp & Hno)].
              ** left. now left.
              ** left. right. left. exact Hp.
              ** right. exists s. auto.
        -- intros Hacc'. apply Hnd.
           apply NoDup_app; [assumption | repeat constructor; auto | ].
           intros x Hx [<-|[]]. contradiction.
Qed.

(** X18: a product text is reported missing exactly when some sale of the
    ledger carries it and its lowercased form is the lowercased name of no
    product; each missing text is reported once.  Names are only
    lowercased here, not trimmed: a sale of [" widget "] is matched to the
    product ["Widget"] by the stock computations and still reported
    missing. *)
Theorem missingProducts_In (sales : list Sale.t) (products : list Product.t) :
  (forall x,
     In x (missingProducts sales products)
     <-> exists sale,
           In sale sales /\ Sale.product sale = x
           /\ forall p, In p products ->
                        toLowerCase (Product.name p) <> toLowerCase x)
  /\ NoDup (missingProducts sales products)
  /\ (exists (sale : Sale.t) (product : Product.t),
        sameProduct sale product = true
        /\ In (Sale.product sale) (missingProducts [sale] [product])).
Proof.
  unfold missingProducts. cbv zeta.
  destruct (missingProducts_from
              (Stats.distinct
                 (map (fun p => toLowerCase (Product.name p)) products))
              sales []) as [Hin Hnd].
  split; [|split].
  - intros x. rewrite Hin. simpl. split.
    + intros [[]|(sale & Hs & Hp & Hno)].
      exists sale. repeat split; try assumption.
      intros p Hpin Heq. apply Hno. rewrite distinct_In.
      apply in_map_iff. exists p. auto.
    + intros (sale & Hs & Hp & Hno). right.
      exists sale. repeat split; try assumption.
      intros H. rewrite distinct_In in H. apply in_map_iff in H.
      destruct H as (p & Heq & Hpin). now apply (Hno p).
  - apply Hnd. constructor.
  - exists Fixtures.untidySale, Fixtures.widget.
    split; [reflexivity|]. simpl. now left.
Qed.

(** X19: [handleInitialStockChange] sends nothing when no product has the
    id.  Otherwise, for the first product with the id, it sends the new
    initial stock and the current stock
    [max(0, newInitialStock - (quantitySold || 0))]: never negative, zero
    when the quantity sold reaches the new initial stock; when the new
    initial stock covers the quantity sold, stock plus sold is the new
    initial stock and the historical view of the updated product takes it
    as baseline. *)
Theorem handleInitialStockChange_updates (tz : Z) (sales : list Sale.t)
    (products : list Product.t) (productId : string)
    (newInitialStock : Z) :
  (handleInitialStockChange products productId newInitialStock = None
   <-> forall p, In p products -> Product.id p <> productId)
  /\ (forall updates,
        handleInitialStockChange products productId newInitialStock
        = Some updates ->
        exists product,
          findProduct products productId = Some product
          /\ In product products
          /\ Product.id product = productId
          /\ newInitialStockOf updates = newInitialStock
          /\ newStockOf updates
             = Z.max 0 (newInitialStock
                        - orZero (Product.quantitySold product))
          /\ 0 <= newStockOf updates
          /\ (newInitialStock <= orZero (Product.quantitySold product) ->
              newStockOf updates = 0)
          /\ (orZero (Product.quantitySold product) <= newInitialStock ->
              newStockOf updates + orZero (Product.quantitySold product)
              = newInitialStock
              /\ forall target,
                   historicalStock
                     (calculateHistoricalStock tz sales
                        (withUpdates product updates) (Some target))
                   = Z.max 0
                       (newInitialStock
                        - sumQuantity
                            (salesUpToDate tz sales
                               (withUpdates product updates) target)))).
Proof.
  unfold handleInitialStockChange, findProduct. split.
  - destruct (find _ products) as [p|] eqn:Hfind.
    + split; [discriminate|]. intros Hnone.
      apply find_some in Hfind. destruct Hfind as [Hin Hid].
      apply String.eqb_eq in Hid. now elim (Hnone p Hin).
    + split; [|reflexivity]. intros _ p Hin Hid.
      apply (find_none _ _ Hfind) in Hin.
      apply String.eqb_neq in Hin. contradiction.
  - intros updates H.
    destruct (find _ products) as [p|] eqn:Hfind; [|discriminate].
    injection H as <-. exists p.
    pose proof (find_some _ _ Hfind) as [Hin Hid].
    apply String.eqb_eq in Hid. simpl.
    repeat split; try assumption; try lia.
    intros target. unfold orElse.
    destruct (Z.eqb_spec newInitialStock 0); f_equal; lia.
Qed.

End ProductFilters.

(** ** More on the statistics *)

Lemma len_cons {A : Type} (x : A) (l : list A) :
  Stats.len (x :: l) = 1 + Stats.len l.
Proof. unfold Stats.len. simpl List.length. lia. Qed.

Lemma len_nonneg {A : Type} (l : list A) : 0 <= Stats.len l.
Proof. unfold Stats.len. lia. Qed.

Lemma len_as_sum {A : Type} (l : list A) :
  Stats.len l = fold_right Z.add 0 (map (fun _ => 1) l).
Proof.
  induction l as [|x l IH]; [reflexivity|].
  rewrite len_cons, IH. reflexivity.
Qed.

Lemma fold_left_add_from {A : Type} (w : A -> Z) (l : list A) (a : Z) :
  fold_left (fun sum x => sum + w x) l a
  = a + fold_right Z.add 0 (map w l).
Proof.
  revert a. induction l as [|x l IH]; intros a; simpl.
  - lia.
  - rewrite IH. lia.
Qed.

Lemma sumStock_as_sum (l : list Product.t) :
  Stats.sumStock l = fold_right Z.add 0 (map Product.stock l).
Proof. unfold Stats.sumStock. now rewrite fold_left_add_from. Qed.

Lemma sumSold_as_sum (l : list Product.t) :
  Stats.sumSold l
  = fold_right Z.add 0
      (map (fun p => orZero (Product.quantitySold p)) l).
Proof. unfold Stats.sumSold. now rewrite fold_left_add_from. Qed.

Lemma sum_pointwise_add {A : Type} (f g : A -> Z) (l : list A) :
  fold_right Z.add 0 (map (fun c => f c + g c) l)
  = fold_right Z.add 0 (map f l) + fold_right Z.add 0 (map g l).
Proof.
  induction l as [|c l IH]; simpl; [reflexivity | rewrite IH; lia].
Qed.

Lemma sum_single_key (k : string) (v : Z) (cats : list string) :
  NoDup cats ->
  fold_right Z.add 0 (map (fun c => if String.eqb k c then v else 0) cats)
  = if existsb (String.eqb k) cats then v else 0.
Proof.
  induction 1 as [|c cats Hnotin _ IH]; simpl; [reflexivity|].
  rewrite IH. destruct (String.eqb_spec k c) as [->|]; simpl; [|reflexivity].
  destruct (existsb (String.eqb c) cats) eqn:Hex; [|lia].
  apply existsb_eqb_In in Hex. contradiction.
Qed.

(** A weight summed category by category is the weight summed over the
    products, when the categories are distinct and cover the products. *)
Lemma sum_by_category (w : Product.t -> Z) (cats : list string)
    (l : list Product.t) :
  NoDup cats ->
  (forall p, In p l -> In (Product.category p) cats) ->
  fold_right Z.add 0
    (map (fun c =>
            fold_right Z.add 0
              (map w (filter (fun p => String.eqb (Product.category p) c) l)))
         cats)
  = fold_right Z.add 0 (map w l).
Proof.
  intros Hnd. induction l as [|p l IH]; intros Hcover.
  - simpl. induction cats as [|c cats IHc]; simpl; [reflexivity|].
    inversion Hnd; subst. now rewrite IHc.
  - transitivity
      (fold_right Z.add 0
         (map (fun c =>
                 (if String.eqb (Product.category p) c then w p else 0)
                 + fold_right Z.add 0
                     (map w (filter
                               (fun q => String.eqb (Product.category q) c)
                               l)))
              cats)).
    + f_equal. apply map_ext. intros c. simpl.
      destruct (String.eqb (Product.category p) c); reflexivity.
    + rewrite sum_pointwise_add, sum_single_key by assumption.
      rewrite IH by (intros; apply Hcover; now right).
      assert (Hin : existsb (String.eqb (Product.category p)) cats = true).
      { apply existsb_eqb_In. apply Hcover. now left. }
      rewrite Hin. reflexivity.
Qed.

Lemma insertByCount_Permutation (a : Stats.CategoryCount)
    (l : list Stats.CategoryCount) :
  Permutation (Stats.insertByCount a l) (a :: l).
Proof.
  induction l as [|b l IH]; simpl; [reflexivity|].
  destruct (Stats.count b - Stats.count a <=? 0); [reflexivity|].
  rewrite IH. apply perm_swap.
Qed.

Lemma sortByCount_Permutation (l : list Stats.CategoryCount) :
  Permutation (Stats.sortByCount l) l.
Proof.
  induction l as [|a l IH]; simpl; [reflexivity|].
  rewrite insertByCount_Permutation. now constructor.
Qed.

Lemma sum_Permutation {A : Type} (w : A -> Z) (l l' : list A) :
  Permutation l l' ->
  fold_right Z.add 0 (map w l) = fold_right Z.add 0 (map w l').
Proof.
  induction 1; simpl; lia.
Qed.

Lemma insertByCount_Sorted (a : Stats.CategoryCount)
    (l : list Stats.CategoryCount) :
  Sorted (fun x y => Stats.count y <= Stats.count x) l ->
  Sorted (fun x y => Stats.count y <= Stats.count x)
         (Stats.insertByCount a l).
Proof.
  induction 1 as [|b l Hsorted IH Hhd]; simpl.
  - repeat constructor.
  - destruct (Z.leb_spec (Stats.count b - Stats.count a) 0).
    + constructor; [now constructor|]. constructor. lia.
    + constructor; [exact IH|].
      destruct l as [|c l]; simpl.
      * constructor. lia.
      * destruct (Stats.count c - Stats.count a <=? 0).
        -- constructor. lia.
        -- constructor. now inversion Hhd.
Qed.

Lemma sortByCount_Sorted (l : list Stats.CategoryCount) :
  Sorted (fun x y => Stats.count y <= Stats.count x) (Stats.sortByCount l).
Proof.
  induction l as [|a l IH]; simpl; [constructor|].
  now apply insertByCount_Sorted.
Qed.

Section Statistics.

Variable products : list Product.t.
Variable filteredProducts : list Product.t.

(** X20: the category breakdown splits the totals: the counts of the
    categories add up to [totalProducts], their stocks to [totalStock] and
    their quantities sold to [totalSold]. *)
Theorem categoryCounts_add_up :
  let stats := Stats.useStockStatistics products filteredProducts in
  fold_right Z.add 0 (map Stats.count (Stats.categoryCounts stats))
  = Stats.totalProducts stats
  /\ fold_right Z.add 0 (map Stats.stock (Stats.categoryCounts stats))
     = Stats.totalStock stats
  /\ fold_right Z.add 0 (map Stats.sold (Stats.categoryCounts stats))
     = Stats.totalSold stats.
Proof.
  cbv zeta. unfold Stats.useStockStatistics. cbv zeta. simpl.
  set (cats := Stats.distinct (map Product.category filteredProducts)).
  assert (Hnd : NoDup cats) by apply distinct_NoDup.
  assert (Hcover : forall p, In p filteredProducts ->
                             In (Product.category p) cats).
  { intros p Hin. apply distinct_In. now apply in_map. }
  split; [|split].
  - rewrite (sum_Permutation _ _ _ (sortByCount_Permutation _)).
    rewrite map_map. simpl.
    rewrite (len_as_sum filteredProducts).
    rewrite <- (sum_by_category _ cats filteredProducts Hnd Hcover).
    f_equal. apply map_ext. intros c. apply len_as_sum.
  - rewrite (sum_Permutation _ _ _ (sortByCount_Permutation _)).
    rewrite map_map. simpl.
    rewrite (sumStock_as_sum filteredProducts).
    rewrite <- (sum_by_category _ cats filteredProducts Hnd Hcover).
    f_equal. apply map_ext. intros c. apply sumStock_as_sum.
  - rewrite (sum_Permutation _ _ _ (sortByCount_Permutation _)).
    rewrite map_map. simpl.
    rewrite (sumSold_as_sum filteredProducts).
    rewrite <- (sum_by_category _ cats filteredProducts Hnd Hcover).
    f_equal. apply map_ext. intros c. apply sumSold_as_sum.
Qed.

(** X21: the category breakdown lists each category of the filtered
    products exactly once, with a count of at least one, from the largest
    count to the smallest. *)
Theorem categoryCounts_sorted :
  let breakdown :=
    Stats.categoryCounts
      (Stats.useStockStatistics products filteredProducts) in
  Sorted (fun x y => Stats.count y <= Stats.count x) breakdown
  /\ NoDup (map Stats.category breakdown)
  /\ (forall c, In c (map Stats.category breakdown)
                <-> exists p, In p filteredProducts
                              /\ Product.category p = c)
  /\ (forall entry, In entry breakdown -> 1 <= Stats.count entry).
Proof.
  cbv zeta. unfold Stats.useStockStatistics. cbv zeta. simpl.
  set (cats := Stats.distinct (map Product.category filteredProducts)).
  set (entries := map _ cats).
  assert (Hperm : Permutation (Stats.sortByCount entries) entries)
    by apply sortByCount_Permutation.
  assert (Hcats : map Stats.category entries = cats).
  { unfold entries. rewrite map_map. simpl. apply map_id. }
  split; [apply sortByCount_Sorted|]. split; [|split].
  - apply (Permutation_NoDup (l := cats)).
    + rewrite <- Hcats. symmetry. now apply Permutation_map.
    + apply distinct_NoDup.
  - intros c.
    assert (Hin : In c (map Stats.category (Stats.sortByCount entries))
                  <-> In c cats).
    { rewrite <- Hcats. split; apply Permutation_in;
        [|symmetry]; now apply Permutation_map. }
    rewrite Hin. unfold cats. rewrite distinct_In, in_map_iff.
    split; intros (p & H1 & H2); exists p; auto.
  - intros entry Hin. apply (Permutation_in _ Hperm) in Hin.
    unfold entries in Hin. apply in_map_iff in Hin.
    destruct Hin as (c & <- & Hc). simpl.
    unfold cats in Hc. rewrite distinct_In in Hc.
    apply in_map_iff in Hc. destruct Hc as (p & Hp & Hin).
    apply in_split in Hin. destruct Hin as (l1 & l2 & ->).
    rewrite filter_app. simpl. rewrite Hp, String.eqb_refl.
    unfold Stats.len. rewrite length_app. simpl List.length. lia.
Qed.

(** X22: when no filtered product has a negative stock, the statistics
    count the status texts of the table: [outOfStock] is the number of
    products shown as [Rupture], [lowStock] the number shown as [Faible]
    and [healthy] the number shown as [OK]. *)
Theorem statistics_count_status_texts :
  (forall p, In p filteredProducts -> 0 <= Product.stock p) ->
  let stats := Stats.useStockStatistics products filteredProducts in
  let shown text :=
    Stats.len
      (filter (fun p =>
                 match Table.getStockStatusText p, text with
                 | Table.Rupture, Table.Rupture => true
                 | Table.Faible, Table.Faible => true
                 | Table.OK, Table.OK => true
                 | _, _ => false
                 end)
              filteredProducts) in
  Stats.outOfStock stats = shown Table.Rupture
  /\ Stats.lowStock stats = shown Table.Faible
  /\ Stats.healthy (Stats.stockLevels stats) = shown Table.OK.
Proof.
  intros Hstock. cbv zeta. unfold Stats.useStockStatistics. cbv zeta.
  simpl. unfold Table.getStockStatusText.
  induction filteredProducts as [|p l IH].
  - repeat split.
  - destruct (IH (fun q Hin => Hstock q (or_intror Hin)))
      as (Hout & Hlow & Hok).
    specialize (Hstock p (or_introl eq_refl)).
    rewrite len_cons. cbn [filter].
    destruct (Z.eqb_spec (Product.stock p) 0),
             (Z.ltb_spec 0 (Product.stock p)),
             (Z.leb_spec (Product.stock p) (Product.minStock p));
      cbn [andb]; cbv beta iota; rewrite ?len_cons; repeat split; lia.
Qed.

End Statistics.

(** ** Pagination *)

(** [Math.ceil(n / k)] is the least number of pages of size [k] that hold
    [n] rows. *)
Lemma ceilDiv_bounds (n k : Z) :
  0 < k -> (Pager.ceilDiv n k - 1) * k < n <= Pager.ceilDiv n k * k.
Proof.
  intros Hk. unfold Pager.ceilDiv.
  pose proof (Z.div_mod (- n) k ltac:(lia)) as Hdm.
  pose proof (Z.mod_pos_bound (- n) k Hk) as Hb.
  set (q := (- n) / k) in *. set (r := (- n) mod k) in *. nia.
Qed.

Lemma ceilDiv_nonneg (n k : Z) : 0 < k -> 0 <= n -> 0 <= Pager.ceilDiv n k.
Proof.
  intros Hk Hn. pose proof (ceilDiv_bounds n k Hk). nia.
Qed.

Lemma ceilDiv_zero (k : Z) : Pager.ceilDiv 0 k = 0.
Proof.
  unfold Pager.ceilDiv. change (- 0) with 0.
  destruct k; reflexivity.
Qed.

(** A page of the table, by [firstn] and [skipn]. *)
Lemma paginatedProducts_firstn_skipn {A : Type} (l : list A)
    (page k : Z) :
  0 < k -> 1 <= page ->
  Pager.paginatedProducts l page k
  = firstn (Z.to_nat k) (skipn (Z.to_nat ((page - 1) * k)) l).
Proof.
  intros Hk Hpage.
  unfold Pager.paginatedProducts, Pager.slice, Pager.relativeIndex.
  cbv zeta.
  set (len := Z.of_nat (List.length l)).
  set (first := (page - 1) * k).
  assert (Hfirst : 0 <= first) by (unfold first; nia).
  destruct (Z.ltb_spec first 0); [lia|].
  destruct (Z.ltb_spec (first + k) 0); [lia|].
  destruct (Z.le_gt_cases len first) as [Hout|Hin].
  - rewrite (Z.min_r first len), (Z.min_r (first + k) len) by lia.
    rewrite !skipn_all2 by (unfold len in *; lia).
    now rewrite !firstn_nil.
  - rewrite (Z.min_l first len) by lia.
    destruct (Z.le_gt_cases (first + k) len) as [Hfull|Hshort].
    + rewrite Z.min_l by lia. f_equal. lia.
    + rewrite Z.min_r by lia.
      rewrite !firstn_all2; [reflexivity| |];
        rewrite length_skipn; unfold len in *; lia.
Qed.

Lemma pages_concat {A : Type} (k n : nat) (l : list A) :
  (List.length l <= n * k)%nat ->
  List.concat (map (fun i => firstn k (skipn (i * k) l)) (seq 0 n)) = l.
Proof.
  revert l. induction n as [|n IH]; intros l Hlen.
  - destruct l; [reflexivity | simpl in Hlen; lia].
  - change (seq 0 (S n)) with (0%nat :: seq 1 n).
    cbn [map List.concat]. rewrite <- seq_shift, map_map.
    rewrite (map_ext _ (fun i => firstn k (skipn (i * k) (skipn k l)))).
    + rewrite IH; [apply firstn_skipn|].
      rewrite length_skipn. simpl in Hlen. lia.
    + intros i. rewrite skipn_skipn. f_equal. f_equal. simpl. lia.
Qed.

Section Pagination.

Context {A : Type}.
Variable rows : list A.
Variable itemsPerPage : Z.
Hypothesis itemsPerPage_pos : 0 < itemsPerPage.

(** X23: with a positive page size, the pages 1 to [totalPages], one after
    the other, are exactly the rows: no row is lost and none shows
    twice. *)
Theorem pages_cover_rows :
  List.concat
    (map (fun i => Pager.paginatedProducts rows (Z.of_nat i) itemsPerPage)
         (seq 1 (Z.to_nat (Pager.totalPages rows itemsPerPage))))
  = rows.
Proof.
  set (k := Z.to_nat itemsPerPage).
  set (n := Z.to_nat (Pager.totalPages rows itemsPerPage)).
  rewrite <- seq_shift, map_map.
  rewrite (map_ext _ (fun i => firstn k (skipn (i * k) rows))).
  - apply pages_concat.
    pose proof (ceilDiv_bounds (Z.of_nat (List.length rows)) itemsPerPage
                  itemsPerPage_pos) as Hb.
    unfold n, k, Pager.totalPages. nia.
  - intros i.
    rewrite paginatedProducts_firstn_skipn by lia.
    f_equal. f_equal. unfold k. nia.
Qed.

(** X24: with a positive page size, a page holds at most [itemsPerPage]
    rows; every page from 1 to [totalPages] holds at least one row, every
    page after [totalPages] is empty, and there is no page exactly when
    there is no row. *)
Theorem page_sizes (page : Z) :
  1 <= page ->
  let shown := Pager.paginatedProducts rows page itemsPerPage in
  let pages := Pager.totalPages rows itemsPerPage in
  Z.of_nat (List.length shown) <= itemsPerPage
  /\ (page <= pages -> shown <> [])
  /\ (pages < page -> shown = [])
  /\ (pages = 0 <-> rows = []).
Proof.
  intros Hpage. cbv zeta.
  rewrite paginatedProducts_firstn_skipn by lia.
  pose proof (ceilDiv_bounds (Z.of_nat (List.length rows)) itemsPerPage
                itemsPerPage_pos) as Hb.
  unfold Pager.totalPages.
  set (pages := Pager.ceilDiv (Z.of_nat (List.length rows)) itemsPerPage)
    in *.
  split; [|split; [|split]].
  - pose proof (firstn_le_length (Z.to_nat itemsPerPage)
                  (skipn (Z.to_nat ((page - 1) * itemsPerPage)) rows)).
    lia.
  - intros Hle Hempty.
    apply (f_equal (@List.length A)) in Hempty.
    rewrite length_firstn, length_skipn in Hempty. simpl in Hempty.
    nia.
  - intros Hgt. rewrite skipn_all2; [apply firstn_nil|]. nia.
  - split.
    + intros H0. rewrite H0 in Hb. destruct rows; [reflexivity|].
      simpl in Hb. lia.
    + intros Hrows. rewrite Hrows in Hb. simpl in Hb. nia.
Qed.

(** X25: [goToPage] never sets a page below 1.  When there are rows it
    sets a page from 1 to [totalPages], which holds at least one row, and
    leaves a page already in that range unchanged; when there is no row it
    sets page 1, above [totalPages = 0]. *)
Theorem goToPage_in_range (page : Z) :
  let pages := Pager.totalPages rows itemsPerPage in
  let target := Pager.goToPage page pages in
  1 <= target
  /\ (rows <> [] ->
      target <= pages
      /\ Pager.paginatedProducts rows target itemsPerPage <> []
      /\ (1 <= page <= pages -> target = page))
  /\ (rows = [] -> target = 1 /\ pages = 0).
Proof.
  cbv zeta. unfold Pager.goToPage.
  pose proof (ceilDiv_bounds (Z.of_nat (List.length rows)) itemsPerPage
                itemsPerPage_pos) as Hb.
  split; [lia|]. split.
  - intros Hrows.
    assert (Hpages : 1 <= Pager.totalPages rows itemsPerPage).
    { unfold Pager.totalPages. destruct rows; [contradiction|].
      simpl List.length in *. nia. }
    split; [lia|]. split; [|lia].
    rewrite paginatedProducts_firstn_skipn by lia.
    intros Hempty. apply (f_equal (@List.length A)) in Hempty.
    rewrite length_firstn, length_skipn in Hempty. simpl in Hempty.
    unfold Pager.totalPages in *. nia.
  - intros Hrows. unfold Pager.totalPages. rewrite Hrows.
    change (Z.of_nat (List.length (@nil A))) with 0.
    rewrite ceilDiv_zero. lia.
Qed.

(** X26: for rows to show, on a page from 1 to [totalPages] the table
    prints the range [first-last] of the rows of that page: [last - first
    + 1] is the number of rows on the page; on a page after [totalPages]
    the range it prints starts after its end. *)
Theorem shownRange_counts_rows (page : Z) :
  rows <> [] ->
  1 <= page ->
  let total := Z.of_nat (List.length rows) in
  exists first last,
    Pager.shownRange page itemsPerPage total = Some (first, last)
    /\ first = (page - 1) * itemsPerPage + 1
    /\ (page <= Pager.totalPages rows itemsPerPage ->
        last - first + 1
        = Z.of_nat
            (List.length (Pager.paginatedProducts rows page itemsPerPage)))
    /\ (Pager.totalPages rows itemsPerPage < page -> last < first).
Proof.
  intros Hrows Hpage. cbv zeta. unfold Pager.shownRange.
  assert (Hlen : 0 < Z.of_nat (List.length rows)).
  { destruct rows; [contradiction | simpl; lia]. }
  destruct (Z.ltb_spec 0 (Z.of_nat (List.length rows))); [|lia].
  eexists. eexists. split; [reflexivity|]. split; [reflexivity|].
  pose proof (ceilDiv_bounds (Z.of_nat (List.length rows)) itemsPerPage
                itemsPerPage_pos) as Hb.
  unfold Pager.totalPages.
  set (pages := Pager.ceilDiv (Z.of_nat (List.length rows)) itemsPerPage)
    in *.
  split.
  - intros Hle. rewrite paginatedProducts_firstn_skipn by lia.
    rewrite length_firstn, length_skipn. nia.
  - intros Hgt. nia.
Qed.

End Pagination.

(** X27: with at most one page the table shows no page button.  With more
    than one page and a current page from 1 to [totalPages], it shows
    [min(5, totalPages)] consecutive page numbers, all from 1 to
    [totalPages], and the current page is one of them. *)
Theorem pageButtons_window (currentPage totalPages : Z) :
  let buttons := Pager.pageButtons currentPage totalPages in
  (totalPages <= 1 -> buttons = [])
  /\ (1 < totalPages ->
      1 <= currentPage <= totalPages ->
      Z.of_nat (List.length buttons) = Z.min 5 totalPages
      /\ (forall i, (i < List.length buttons)%nat ->
            nth i buttons 0 = nth 0 buttons 0 + Z.of_nat i)
      /\ (forall b, In b buttons -> 1 <= b <= totalPages)
      /\ In currentPage buttons).
Proof.
  cbv zeta. unfold Pager.pageButtons. split.
  { intros Hone. destruct (Z.ltb_spec 1 totalPages); [lia | reflexivity]. }
  intros Hmany Hcur.
  destruct (Z.ltb_spec 1 totalPages); [|lia].
  set (n := Z.to_nat (Z.min 5 totalPages)).
  assert (Hn : Z.of_nat n = Z.min 5 totalPages) by (unfold n; lia).
  assert (Hnum : forall i, Pager.pageNum currentPage totalPages i
                           = Pager.pageNum currentPage totalPages 0 + i).
  { intros i. unfold Pager.pageNum.
    destruct (totalPages <=? 5), (currentPage <=? 3),
             (totalPages - 2 <=? currentPage); lia. }
  split; [|split; [|split]].
  - now rewrite length_map, length_seq.
  - intros i Hi. rewrite length_map, length_seq in Hi.
    rewrite !(nth_indep _ 0 (Pager.pageNum currentPage totalPages
                               (Z.of_nat 0)))
      by (rewrite length_map, length_seq; lia).
    rewrite !(map_nth (fun i => Pager.pageNum currentPage totalPages
                                  (Z.of_nat i))).
    rewrite !seq_nth by lia. simpl Z.of_nat at 2. rewrite (Hnum (Z.of_nat _)).
    simpl. lia.
  - intros b Hb. apply in_map_iff in Hb. destruct Hb as (i & <- & Hi).
    apply in_seq in Hi. unfold Pager.pageNum.
    destruct (Z.leb_spec totalPages 5), (Z.leb_spec currentPage 3),
             (Z.leb_spec (totalPages - 2) currentPage); lia.
  - apply in_map_iff.
    exists (Z.to_nat (currentPage
                      - Pager.pageNum currentPage totalPages 0)).
    assert (Hoff : 0 <= currentPage - Pager.pageNum currentPage totalPages 0
                   < Z.min 5 totalPages).
    { unfold Pager.pageNum.
      destruct (Z.leb_spec totalPages 5), (Z.leb_spec currentPage 3),
               (Z.leb_spec (totalPages - 2) currentPage); lia. }
    split.
    + rewrite Hnum. lia.
    + apply in_seq. lia.
Qed.

(** ** Selection *)

Lemma has_In (selected : list string) (x : string) :
  Selection.has selected x = true <-> In x selected.
Proof. apply existsb_eqb_In. Qed.

Lemma has_delete (selected : list string) (x y : string) :
  Selection.has (Selection.delete selected x) y
  = Selection.has selected y && negb (String.eqb y x).
Proof.
  apply eq_true_iff_eq.
  rewrite andb_true_iff, negb_true_iff, !has_In, String.eqb_neq.
  unfold Selection.delete. rewrite filter_In, negb_true_iff, String.eqb_neq.
  intuition congruence.
Qed.

Lemma has_add (selected : list string) (x y : string) :
  Selection.has (Selection.add selected x) y
  = Selection.has selected y || String.eqb y x.
Proof.
  apply eq_true_iff_eq.
  rewrite orb_true_iff, !has_In, String.eqb_eq.
  unfold Selection.add.
  destruct (Selection.has selected x) eqn:Hx.
  - apply has_In in Hx. intuition congruence.
  - rewrite in_app_iff. simpl. intuition congruence.
Qed.

Lemma add_NoDup (selected : list string) (x : string) :
  NoDup selected -> NoDup (Selection.add selected x).
Proof.
  intros Hnd. unfold Selection.add.
  destruct (Selection.has selected x) eqn:Hx; [assumption|].
  apply NoDup_app; [assumption | repeat constructor; auto | ].
  intros y Hy [<-|[]]. apply has_In in Hy. congruence.
Qed.

Lemma filter_all {A : Type} (f : A -> bool) (l : list A) :
  (forall x, In x l -> f x = true) -> filter f l = l.
Proof.
  induction l as [|x l IH]; intros Hall; simpl; [reflexivity|].
  rewrite (Hall x (or_introl eq_refl)), IH; [reflexivity|].
  intros y Hy. apply Hall. now right.
Qed.

Lemma delete_length (selected : list string) (x : string) :
  NoDup selected -> In x selected ->
  S (List.length (Selection.delete selected x)) = List.length selected.
Proof.
  unfold Selection.delete.
  induction 1 as [|y l Hnotin Hnd IH]; intros Hin; [contradiction|].
  simpl. destruct (String.eqb_spec x y) as [->|Hne]; simpl.
  - f_equal.
    rewrite filter_all; [reflexivity|].
    intros z Hz. apply negb_true_iff.
    apply String.eqb_neq. congruence.
  - destruct Hin as [->|Hin]; [contradiction|]. now rewrite IH.
Qed.

Lemma ofArray_from (ids acc : list string) :
  (forall x, In x (fold_left Selection.add ids acc) <-> In x acc \/ In x ids)
  /\ (NoDup acc -> NoDup (fold_left Selection.add ids acc)).
Proof.
  revert acc. induction ids as [|i ids IH]; intros acc; simpl.
  - split; [intros x; tauto | auto].
  - destruct (IH (Selection.add acc i)) as [Hin Hnd]. split.
    + intros x. rewrite Hin, <- !has_In, has_add, orb_true_iff, String.eqb_eq.
      rewrite !has_In. intuition congruence.
    + intros Hacc. apply Hnd. now apply add_NoDup.
Qed.

Lemma ofArray_NoDup_length (ids : list string) :
  NoDup ids ->
  forall acc,
    NoDup acc -> (forall x, In x ids -> ~ In x acc) ->
    List.length (fold_left Selection.add ids acc)
    = (List.length acc + List.length ids)%nat.
Proof.
  induction 1 as [|i ids Hnotin Hnd IH]; intros acc Hacc Hfresh; simpl.
  - lia.
  - assert (Hi : Selection.has acc i = false).
    { apply not_true_is_false. intros H. apply has_In in H.
      apply (Hfresh i); [now left | assumption]. }
    assert (Hadd : Selection.add acc i = acc ++ [i]).
    { unfold Selection.add. now rewrite Hi. }
    rewrite Hadd, IH.
    + rewrite length_app. simpl. lia.
    + rewrite <- Hadd. now apply add_NoDup.
    + intros x Hx Hin. apply in_app_iff in Hin.
      destruct Hin as [Hin|[<-|[]]]; [|contradiction].
      apply (Hfresh x); [now right | assumption].
Qed.

(** X28: toggling a product flips whether it is selected and leaves every
    other product as it was; the selection stays free of duplicates and
    its size moves by one, down when the product was selected and up when
    it was not. *)
Theorem toggleSelectProduct_flips (selectedProducts : list string)
    (productId : string) :
  NoDup selectedProducts ->
  let toggled := Selection.toggleSelectProduct selectedProducts productId in
  (forall x,
     Selection.has toggled x
     = if String.eqb x productId
       then negb (Selection.has selectedProducts productId)
       else Selection.has selectedProducts x)
  /\ NoDup toggled
  /\ (if Selection.has selectedProducts productId
      then S (List.length toggled) = List.length selectedProducts
      else List.length toggled = S (List.length selectedProducts)).
Proof.
  intros Hnd. cbv zeta. unfold Selection.toggleSelectProduct.
  destruct (Selection.has selectedProducts productId) eqn:Hhas.
  - split; [|split].
    + intros x. rewrite has_delete.
      destruct (String.eqb_spec x productId) as [->|]; simpl.
      * apply andb_false_r.
      * apply andb_true_r.
    + unfold Selection.delete. now apply NoDup_filter.
    + apply delete_length; [assumption | now apply has_In].
  - split; [|split].
    + intros x. rewrite has_add.
      destruct (String.eqb_spec x productId) as [->|]; simpl.
      * apply orb_true_r.
      * apply orb_false_r.
    + now apply add_NoDup.
    + unfold Selection.add. rewrite Hhas, length_app. simpl. lia.
Qed.

(** X29: on a page with rows and distinct ids, [toggleSelectAll] from an
    empty selection selects exactly the ids of the page, and a second call
    clears the selection.  The test compares sizes only: a selection of as
    many ids as the page has rows is cleared whatever the ids are. *)
Theorem toggleSelectAll_round_trip (paginatedProducts : list Product.t) :
  paginatedProducts <> [] ->
  NoDup (map Product.id paginatedProducts) ->
  let all := Selection.toggleSelectAll [] paginatedProducts in
  (forall x, In x all <-> exists p, In p paginatedProducts
                                    /\ Product.id p = x)
  /\ NoDup all
  /\ Selection.toggleSelectAll all paginatedProducts = []
  /\ (forall selected,
        List.length selected = List.length paginatedProducts ->
        Selection.toggleSelectAll selected paginatedProducts = []).
Proof.
  intros Hrows Hnd. cbv zeta.
  assert (Hall : Selection.toggleSelectAll [] paginatedProducts
                 = Selection.ofArray (map Product.id paginatedProducts)).
  { unfold Selection.toggleSelectAll.
    destruct paginatedProducts; [contradiction | reflexivity]. }
  rewrite Hall. unfold Selection.ofArray.
  destruct (ofArray_from (map Product.id paginatedProducts) [])
    as [Hin Hnodup].
  split; [|split; [|split]].
  - intros x. rewrite Hin, in_map_iff. simpl.
    split.
    + intros [[]|(p & Hp & Hpin)]. eauto.
    + intros (p & Hp & Hpin). right. eauto.
  - apply Hnodup. constructor.
  - unfold Selection.toggleSelectAll.
    rewrite (ofArray_NoDup_length _ Hnd []);
      [|constructor|intros x _ []].
    simpl. rewrite length_map, Nat.eqb_refl. reflexivity.
  - intros selected Hlen. unfold Selection.toggleSelectAll.
    now rewrite Hlen, Nat.eqb_refl.
Qed.

(** ** The product form *)

Lemma negativeQ_true (q : Q) :
  EditModal.negativeQ q = true <-> (q < 0)%Q.
Proof.
  unfold EditModal.negativeQ, Qlt. simpl. rewrite Z.ltb_lt. lia.
Qed.

Lemma belowZero_Q (x : EditModal.Field Q) :
  (EditModal.belowZero EditModal.negativeQ x = true
   <-> exists q, x = EditModal.Value q /\ (q < 0)%Q)
  /\ (EditModal.belowZero EditModal.negativeQ x = false
      <-> match x with
          | EditModal.Value q => (0 <= q)%Q
          | EditModal.NaN => True
          end).
Proof.
  destruct x as [q|]; simpl.
  - split.
    + rewrite negativeQ_true. split.
      * intros H. exists q. auto.
      * intros (q' & [= <-] & H). exact H.
    + rewrite <- not_true_iff_false, negativeQ_true.
      split; [apply Qnot_lt_le | apply Qle_not_lt].
  - split; [|tauto]. split; [discriminate|].
    intros (q & [=] & _).
Qed.

Lemma belowZero_Z (x : EditModal.Field Z) :
  (EditModal.belowZero (fun n => n <? 0) x = true
   <-> exists n, x = EditModal.Value n /\ n < 0)
  /\ (EditModal.belowZero (fun n => n <? 0) x = false
      <-> match x with
          | EditModal.Value n => 0 <= n
          | EditModal.NaN => True
          end).
Proof.
  destruct x as [n|]; simpl.
  - split.
    + rewrite Z.ltb_lt. split.
      * intros H. exists n. auto.
      * intros (n' & [= <-] & H). exact H.
    + rewrite Z.ltb_ge. tauto.
  - split; [|tauto]. split; [discriminate|].
    intros (n & [=] & _).
Qed.

(** The keys of the errors, check by check. *)
Lemma formErrors_keys (formData : EditModal.FormData) :
  map fst (EditModal.formErrors formData)
  = (if String.eqb (trim (EditModal.name formData)) EmptyString
     then ["name"%string] else [])
    ++ (if String.eqb (trim (EditModal.category formData)) EmptyString
        then ["category"%string] else [])
    ++ (if EditModal.belowZero EditModal.negativeQ
             (EditModal.price formData)
        then ["price"%string] else [])
    ++ (if EditModal.belowZero (fun n => n <? 0)
             (EditModal.initialStock formData)
        then ["initialStock"%string] else [])
    ++ (if EditModal.belowZero (fun n => n <? 0)
             (EditModal.minStock formData)
        then ["minStock"%string] else [])
    ++ (if String.eqb (EditModal.initialStockDate formData) EmptyString
        then ["initialStockDate"%string] else []).
Proof.
  unfold EditModal.formErrors, EditModal.setError. cbv zeta.
  destruct (String.eqb (trim (EditModal.name formData)) EmptyString),
           (String.eqb (trim (EditModal.category formData)) EmptyString),
           (EditModal.belowZero EditModal.negativeQ
              (EditModal.price formData)),
           (EditModal.belowZero (fun n => n <? 0)
              (EditModal.initialStock formData)),
           (EditModal.belowZero (fun n => n <? 0)
              (EditModal.minStock formData)),
           (String.eqb (EditModal.initialStockDate formData) EmptyString);
    reflexivity.
Qed.

Ltac key_cases :=
  repeat match goal with
         | |- context [if ?b then _ else _] => destruct b
         end;
  simpl; intuition (discriminate || congruence).

(** X30: [validateForm] records an error under the key of a field exactly
    when its check fails: a name or a category blank after trimming, a
    price, initial stock or minimum stock that is a number below zero, an
    empty date.  It accepts the form exactly when no check fails; a number
    field emptied to NaN fails no check, so a form whose number fields are
    NaN is accepted when its texts are filled. *)
Theorem validateForm_accepts (formData : EditModal.FormData) :
  let keys := map fst (EditModal.formErrors formData) in
  (EditModal.validateForm formData = true
   <-> trim (EditModal.name formData) <> EmptyString
       /\ trim (EditModal.category formData) <> EmptyString
       /\ match EditModal.price formData with
          | EditModal.Value q => (0 <= q)%Q
          | EditModal.NaN => True
          end
       /\ match EditModal.initialStock formData with
          | EditModal.Value n => 0 <= n
          | EditModal.NaN => True
          end
       /\ match EditModal.minStock formData with
          | EditModal.Value n => 0 <= n
          | EditModal.NaN => True
          end
       /\ EditModal.initialStockDate formData <> EmptyString)
  /\ (EditModal.validateForm formData = true <-> keys = [])
  /\ (In "name"%string keys
      <-> trim (EditModal.name formData) = EmptyString)
  /\ (In "category"%string keys
      <-> trim (EditModal.category formData) = EmptyString)
  /\ (In "price"%string keys
      <-> exists q, EditModal.price formData = EditModal.Value q
                    /\ (q < 0)%Q)
  /\ (In "initialStock"%string keys
      <-> exists n, EditModal.initialStock formData = EditModal.Value n
                    /\ n < 0)
  /\ (In "minStock"%string keys
      <-> exists n, EditModal.minStock formData = EditModal.Value n
                    /\ n < 0)
  /\ (In "initialStockDate"%string keys
      <-> EditModal.initialStockDate formData = EmptyString).
Proof.
  cbv zeta.
  assert (Hvalid : EditModal.validateForm formData = true
                   <-> map fst (EditModal.formErrors formData) = []).
  { unfold EditModal.validateForm. rewrite Nat.eqb_eq.
    destruct (EditModal.formErrors formData); simpl; split;
      congruence. }
  destruct (belowZero_Q (EditModal.price formData)) as [Hp Hp'].
  destruct (belowZero_Z (EditModal.initialStock formData)) as [Hi Hi'].
  destruct (belowZero_Z (EditModal.minStock formData)) as [Hm Hm'].
  split; [|split; [exact Hvalid|]].
  - rewrite Hvalid, <- Hp', <- Hi', <- Hm', <- !String.eqb_neq.
    rewrite formErrors_keys. key_cases.
  - rewrite <- Hp, <- Hi, <- Hm, <- !String.eqb_eq.
    rewrite formErrors_keys, !in_app_iff.
    repeat split; key_cases.
Qed.

(** ** Instances of the theorems on the sample records *)

Module Instances.

Import Fixtures Samples.

Ltac by_computation := vm_compute; first [reflexivity | discriminate].

Lemma ledger_quantities_nonneg :
  forall sale, In sale ledger -> 0 <= Sale.quantity sale.
Proof. intros sale [<-|[<-|[]]]; by_computation. Defined.

Lemma ledger_dates_valid :
  forall sale, In sale ledger -> sameProduct sale widget = true ->
               Sale.date sale <> InvalidDate.
Proof. intros sale [<-|[<-|[]]] _; by_computation. Defined.

Lemma early_and_counted_sales_split_witness :
  getEarlySalesQuantity (parseISODate tz) widget ledger
  + sumQuantity
      (relevantSales widget (parseISODate tz "2024-01-01") ledger)
  = sumQuantity (Spec.matched widget ledger).
Proof.
  apply (proj1 (early_and_counted_sales_split (parseISODate tz) widget
                  ledger "2024-01-01" 1704060000000 eq_refl
                  ltac:(discriminate) ltac:(by_computation)
                  ledger_dates_valid)).
Defined.

Lemma hasEarlySales_and_quantity_witness :
  hasEarlySales (parseISODate tz) widget ledger = true
  /\ 0 < getEarlySalesQuantity (parseISODate tz) widget ledger
  /\ getEarlySalesQuantity (parseISODate tz) widget onDateLedger = 0.
Proof.
  split; [by_computation|]. split.
  - apply (proj2 (hasEarlySales_and_quantity (parseISODate tz) widget
                    ledger)).
    + intros sale [<-|[<-|[]]]; by_computation.
    + by_computation.
  - apply (proj1 (hasEarlySales_and_quantity (parseISODate tz) widget
                    onDateLedger)).
    by_computation.
Defined.

Lemma unparsed_initialStockDate_witness :
  parseISODate tz "n/a" = InvalidDate
  /\ calculateStockFinal (parseISODate tz) widgetUnparsed ledger = 100
  /\ hasEarlySales (parseISODate tz) widgetUnparsed ledger = false.
Proof.
  split; [by_computation|].
  destruct (unparsed_initialStockDate (parseISODate tz) widgetUnparsed
              ledger "n/a" eq_refl ltac:(discriminate)
              ltac:(by_computation)) as (Hstock & Hhas & _).
  split; [rewrite Hstock; by_computation | exact Hhas].
Defined.

Lemma calculateStockFinal_antitone_witness :
  calculateStockFinal (parseISODate tz) widget ([bigSale] ++ ledger)
  <= calculateStockFinal (parseISODate tz) widget ledger
  /\ calculateStockFinal (parseISODate tz) widget ledger <= 100.
Proof.
  apply (calculateStockFinal_antitone (parseISODate tz) widget ledger
           [bigSale]).
  intros sale [<-|[<-|[<-|[]]]]; by_computation.
Defined.

Lemma ledger_order_irrelevant_witness :
  calculateStockFinal (parseISODate tz) widget ledger
  = calculateStockFinal (parseISODate tz) widget (rev ledger).
Proof.
  apply (proj1 (ledger_order_irrelevant (parseISODate tz) widget ledger
                  (rev ledger) (perm_swap _ _ _))).
Defined.

Lemma calculateHistoricalStock_antitone_witness :
  quantitySoldUpToDate
    (calculateHistoricalStock tz ledger widget
       (Some (TimeValue 1703973600000)))
  <= quantitySoldUpToDate
       (calculateHistoricalStock tz ledger widget
          (Some (TimeValue 1704060000000))).
Proof.
  apply (proj1 (calculateHistoricalStock_antitone tz ledger widget
                  1703973600000 1704060000000 ledger_quantities_nonneg
                  ltac:(by_computation))).
Defined.

Lemma calculateHistoricalStock_same_day_witness :
  calculateHistoricalStock tz ledger widget (Some (day "2024-01-01"))
  = calculateHistoricalStock tz ledger widget (Some lastMs).
Proof.
  apply (calculateHistoricalStock_same_day tz ledger widget
           1704060000000 1704146399999).
  by_computation.
Defined.

Lemma historical_view_after_last_sale_witness :
  historicalStock
    (calculateHistoricalStock tz onDateLedger widget
       (Some (day "2024-01-05")))
  = calculateStockFinal (parseISODate tz) widget onDateLedger.
Proof.
  apply (proj2 (historical_view_after_last_sale tz onDateLedger
                  (parseISODate tz) widget (day "2024-01-05")
                  "2024-01-01" 1704060000000 eq_refl
                  ltac:(discriminate) ltac:(by_computation)
                  ltac:(discriminate)
                  ltac:(intros sale [<-|[]] _; by_computation))).
  by_computation.
Defined.

Lemma getFilteredSales_In_witness :
  In (mkSale "Widget" "Tools" (day "2023-12-31") 5)
     (StockView.getFilteredSales tz newDate ledger untilNewYear)
  /\ StockView.getFilteredSales tz newDate ledger noFilters = ledger.
Proof.
  split.
  - apply (proj1 (getFilteredSales_In tz newDate ledger untilNewYear _)).
    split; [simpl; right; left; reflexivity|].
    split; [left; reflexivity|].
    split; [right; by_computation|].
    split; left; reflexivity.
  - apply (proj2 (getFilteredSales_In tz newDate ledger noFilters
                    bigSale)).
    reflexivity.
Defined.

Lemma historical_quantity_of_filtered_sales_witness :
  quantitySoldUpToDate
    (calculateHistoricalStock tz ledger widget
       (StockView.targetDate newDate untilNewYear))
  = sumQuantity
      (Spec.matched widget
         (StockView.getFilteredSales tz newDate ledger untilNewYear)).
Proof.
  apply (historical_quantity_of_filtered_sales tz newDate ledger
           untilNewYear widget eq_refl ltac:(discriminate) eq_refl eq_refl).
Defined.

Lemma enhancedProducts_view_witness :
  Forall (fun e => 0 <= StockView.displayStock e
                   /\ StockView.isHistoricalView e = true)
         (StockView.enhancedProducts tz newDate ledger catalogue
            untilNewYear).
Proof.
  apply Forall_forall.
  apply (proj1 (proj2 (proj2 (enhancedProducts_view tz newDate ledger
                                catalogue untilNewYear)))).
  right. discriminate.
Defined.

Lemma getProductsWithFilteredSales_In_witness :
  StockView.hasSalesFilters register1 = true
  /\ In widget
        (StockView.getProductsWithFilteredSales tz newDate ledger
           catalogue register1).
Proof.
  split; [reflexivity|].
  apply (proj1 (proj2 (getProductsWithFilteredSales_In tz newDate ledger
                         catalogue register1 widget eq_refl))).
  - simpl. left. reflexivity.
  - exists (mkSale "Widget" "Tools" (day "2024-01-01") 10).
    split; by_computation || (vm_compute; left; reflexivity).
Defined.

Lemma statusKeeps_partition_witness :
  List.length
    (filter (fun status =>
               StockView.statusKeeps
                 (StockView.mkFilters "" "all" status "all" "all" "all"
                    (StockView.mkDateRange "" ""))
                 shownWidget)
            ["in_stock"; "low_stock"; "out_of_stock"]%string)
  = 1%nat.
Proof.
  apply (proj1 (statusKeeps_partition noFilters shownWidget
                  ltac:(by_computation) ltac:(by_computation))).
Defined.

Lemma stockLevelKeeps_partition_witness :
  List.length
    (filter (fun level =>
               StockView.stockLevelKeeps
                 (StockView.mkFilters "" "all" "all" level "all" "all"
                    (StockView.mkDateRange "" ""))
                 shownWidget)
            ["high"; "medium"; "low"; "empty"]%string)
  = 1%nat.
Proof.
  apply (proj1 (stockLevelKeeps_partition noFilters shownWidget
                  ltac:(by_computation))).
Defined.

Lemma missingProducts_In_witness :
  In "Widget"%string (StockView.missingProducts ledger [gadget])
  /\ NoDup (StockView.missingProducts ledger [gadget]).
Proof.
  split.
  - apply (proj1 (missingProducts_In ledger [gadget])).
    exists (mkSale "Widget" "Tools" (day "2024-01-01") 10).
    split; [simpl; left; reflexivity|]. split; [reflexivity|].
    intros p [<-|[]]. by_computation.
  - apply (proj1 (proj2 (missingProducts_In ledger [gadget]))).
Defined.

Lemma handleInitialStockChange_updates_witness :
  StockView.handleInitialStockChange catalogue "p1" 50
  = Some (StockView.mkStockUpdates 50 40)
  /\ exists product,
       StockView.findProduct catalogue "p1" = Some product
       /\ 40 = Z.max 0 (50 - orZero (Product.quantitySold product)).
Proof.
  split; [reflexivity|].
  destruct (proj2 (handleInitialStockChange_updates tz ledger catalogue
                     "p1" 50)
              (StockView.mkStockUpdates 50 40) eq_refl)
    as (product & Hfind & _ & _ & _ & Hstock & _).
  exists product. split; [exact Hfind | exact Hstock].
Defined.

Lemma categoryCounts_sorted_witness :
  Forall (fun entry => 1 <= Stats.count entry)
         (Stats.categoryCounts
            (Stats.useStockStatistics catalogue catalogue)).
Proof.
  apply Forall_forall.
  apply (proj2 (proj2 (proj2 (categoryCounts_sorted catalogue catalogue)))).
Defined.

Lemma statistics_count_status_texts_witness :
  Stats.outOfStock (Stats.useStockStatistics catalogue catalogue) = 2
  /\ Stats.healthy
       (Stats.stockLevels (Stats.useStockStatistics catalogue catalogue))
     = 1.
Proof.
  destruct (statistics_count_status_texts catalogue catalogue
              ltac:(intros p [<-|[<-|[<-|[]]]]; by_computation))
    as (Hout & _ & Hok).
  split; [rewrite Hout | rewrite Hok]; by_computation.
Defined.

Lemma pages_cover_rows_witness :
  List.concat
    (map (fun i => Pager.paginatedProducts fiveRows (Z.of_nat i) 2)
         (seq 1 (Z.to_nat (Pager.totalPages fiveRows 2))))
  = fiveRows.
Proof.
  apply (pages_cover_rows fiveRows 2). by_computation.
Defined.

Lemma page_sizes_witness :
  Pager.paginatedProducts fiveRows 3 2 <> []
  /\ Pager.paginatedProducts fiveRows 4 2 = [].
Proof.
  split.
  - apply (proj1 (proj2 (page_sizes fiveRows 2 ltac:(by_computation) 3
                           ltac:(by_computation)))).
    by_computation.
  - apply (proj1 (proj2 (proj2 (page_sizes fiveRows 2
                                  ltac:(by_computation) 4
                                  ltac:(by_computation))))).
    by_computation.
Defined.

Lemma goToPage_in_range_witness :
  Pager.goToPage 9 (Pager.totalPages fiveRows 2) <= 3
  /\ Pager.goToPage 9 (Pager.totalPages (@nil string) 2) = 1.
Proof.
  split.
  - apply (proj1 (proj2 (goToPage_in_range fiveRows 2
                           ltac:(by_computation) 9))).
    discriminate.
  - apply (proj2 (proj2 (goToPage_in_range (@nil string) 2
                           ltac:(by_computation) 9))).
    reflexivity.
Defined.

Lemma shownRange_counts_rows_witness :
  exists first last,
    Pager.shownRange 3 2 5 = Some (first, last)
    /\ first = 5.
Proof.
  destruct (shownRange_counts_rows fiveRows 2 ltac:(by_computation) 3
              ltac:(discriminate) ltac:(by_computation))
    as (first & last & Hrange & Hfirst & _).
  exists first, last. split; [exact Hrange | exact Hfirst].
Defined.

Lemma pageButtons_window_witness :
  In 7 (Pager.pageButtons 7 20)
  /\ Z.of_nat (List.length (Pager.pageButtons 7 20)) = 5
  /\ Pager.pageButtons 1 1 = [].
Proof.
  destruct (proj2 (pageButtons_window 7 20) ltac:(lia) ltac:(lia))
    as (Hlen & _ & _ & Hin).
  split; [exact Hin|]. split; [exact Hlen|].
  apply (proj1 (pageButtons_window 1 1)). lia.
Defined.

Lemma toggleSelectProduct_flips_witness :
  Selection.has (Selection.toggleSelectProduct fiveRows "c") "c" = false
  /\ Selection.has (Selection.toggleSelectProduct fiveRows "z") "z" = true.
Proof.
  assert (Hnd : NoDup fiveRows).
  { repeat constructor; simpl; intuition discriminate. }
  split.
  - rewrite (proj1 (toggleSelectProduct_flips fiveRows "c" Hnd)).
    reflexivity.
  - rewrite (proj1 (toggleSelectProduct_flips fiveRows "z" Hnd)).
    reflexivity.
Defined.

Lemma toggleSelectAll_round_trip_witness :
  Selection.toggleSelectAll
    (Selection.toggleSelectAll [] [widget]) [widget]
  = [].
Proof.
  apply (proj1 (proj2 (proj2 (toggleSelectAll_round_trip [widget]
                                ltac:(discriminate)
                                ltac:(repeat constructor; simpl; tauto))))).
Defined.

Lemma validateForm_accepts_witness :
  EditModal.validateForm emptiedForm = true
  /\ In "price"%string (map fst (EditModal.formErrors badForm))
  /\ In "name"%string (map fst (EditModal.formErrors badForm)).
Proof.
  split; [|split].
  - apply (proj1 (validateForm_accepts emptiedForm)).
    repeat split; discriminate.
  - apply (proj1 (proj2 (proj2 (proj2 (proj2
             (validateForm_accepts badForm)))))).
    exists (- 1 # 2)%Q. split; reflexivity.
  - apply (proj1 (proj2 (proj2 (validateForm_accepts badForm)))).
    reflexivity.
Defined.

End Instances.
